(** * Rev-Tee dashboard ([streamlit_app.py]): credential store, filters and KPIs

    A shallow embedding of the dashboard script: the SHA-256 password
    digest, the user table and its handlers (load, authenticate, add,
    edit), the sales table with its date parsing, the sidebar filter and
    the KPI block, and one run of the whole script on the files, the data
    cache and the session.  Data frames are lists of rows in row order;
    the two CSV files live in a finite map from paths to file contents.
    Charts and downloads show data and change nothing: they are left
    out. *)

From Stdlib Require Import ZArith QArith Ascii String List Lia.
From stdpp Require Import base decidable option list strings gmap.

Local Open Scope string_scope.
Local Open Scope Z_scope.

(** ** SHA-256 ([hashlib.sha256]) *)

Module SHA256.

(** Words are 32-bit unsigned integers kept in [Z]; every operation
    reduces its result modulo [2^32]. *)
Definition w32 (x : Z) : Z := Z.land x 4294967295.

Definition add32 (x y : Z) : Z := w32 (x + y).

Definition rotr (n x : Z) : Z :=
  Z.lor (Z.shiftr x n) (w32 (Z.shiftl x (32 - n))).

Definition Ch (x y z : Z) : Z :=
  Z.lxor (Z.land x y) (Z.land (Z.lxor x 4294967295) z).

Definition Maj (x y z : Z) : Z :=
  Z.lxor (Z.lxor (Z.land x y) (Z.land x z)) (Z.land y z).

Definition Sigma0 (x : Z) : Z := Z.lxor (Z.lxor (rotr 2 x) (rotr 13 x)) (rotr 22 x).
Definition Sigma1 (x : Z) : Z := Z.lxor (Z.lxor (rotr 6 x) (rotr 11 x)) (rotr 25 x).
Definition sigma0 (x : Z) : Z := Z.lxor (Z.lxor (rotr 7 x) (rotr 18 x)) (Z.shiftr x 3).
Definition sigma1 (x : Z) : Z := Z.lxor (Z.lxor (rotr 17 x) (rotr 19 x)) (Z.shiftr x 10).

(** The round constants and the initial hash value are derived the way
    FIPS 180-4 defines them: the first 32 bits of the fractional parts of
    the cube roots of the first 64 primes, and of the square roots of the
    first 8. *)
Definition is_prime (n : Z) : bool :=
  (1 <? n) && forallb (fun d => negb (n mod d =? 0))
                      (map Z.of_nat (seq 2 (Z.to_nat n - 2))).

Definition primes : list Z :=
  Eval vm_compute in List.filter is_prime (map Z.of_nat (seq 2 310)).

(** Integer cube root of [n], found bit by bit from bit [b - 1] down:
    [r] is kept such that [r ^ 3 <= n]. *)
Fixpoint cbrt_bits (b : nat) (n r : Z) : Z :=
  match b with
  | O => r
  | S b' =>
      let c := r + 2 ^ Z.of_nat b' in
      cbrt_bits b' n (if c * c * c <=? n then c else r)
  end.

Definition cbrt (n : Z) : Z := cbrt_bits 40 n 0.

Definition K : list Z :=
  Eval vm_compute in map (fun p => w32 (cbrt (p * 2 ^ 96))) primes.

Definition H0 : list Z :=
  Eval vm_compute in map (fun p => w32 (Z.sqrt (p * 2 ^ 64))) (firstn 8 primes).

(** Padding: a [0x80] byte, zero bytes up to 56 modulo 64, then the
    message length in bits as a 64-bit big-endian integer. *)
Definition be_bytes (n : nat) (x : Z) : list Z :=
  map (fun i => Z.land (Z.shiftr x (8 * Z.of_nat i)) 255) (rev (seq 0 n)).

Definition pad (msg : list Z) : list Z :=
  let len := Z.of_nat (length msg) in
  let zeros := Z.to_nat ((55 - len) mod 64) in
  msg ++ [128] ++ repeat 0 zeros ++ be_bytes 8 (Z.land (8 * len) 18446744073709551615).

Definition be_word (bs : list Z) : Z :=
  fold_left (fun acc b => Z.lor (Z.shiftl acc 8) b) bs 0.

(** [chunks k n l] cuts [l] into [n] consecutive pieces of [k] items. *)
Fixpoint chunks {A} (k n : nat) (l : list A) : list (list A) :=
  match n with
  | O => []
  | S n' => firstn k l :: chunks k n' (skipn k l)
  end.

Definition words_of_block (block : list Z) : list Z :=
  map be_word (chunks 4 16 block).

(** Message schedule.  [recent] holds the words computed so far, newest
    first, so that [W(t-2)], [W(t-7)], [W(t-15)], [W(t-16)] sit at
    positions 1, 6, 14 and 15. *)
Fixpoint extend (n : nat) (recent : list Z) : list Z :=
  match n with
  | O => recent
  | S n' =>
      let w := add32 (add32 (sigma1 (nth 1 recent 0)) (nth 6 recent 0))
                     (add32 (sigma0 (nth 14 recent 0)) (nth 15 recent 0)) in
      extend n' (w :: recent)
  end.

Definition schedule (block : list Z) : list Z :=
  rev (extend 48 (rev (words_of_block block))).

Record regs := Regs { ra : Z; rb : Z; rc : Z; rd : Z; re : Z; rf : Z; rg : Z; rh : Z }.

Definition round (s : regs) (kw : Z * Z) : regs :=
  let '(k, w) := kw in
  let t1 := add32 (add32 (add32 (rh s) (Sigma1 (re s))) (add32 (Ch (re s) (rf s) (rg s)) k)) w in
  let t2 := add32 (Sigma0 (ra s)) (Maj (ra s) (rb s) (rc s)) in
  Regs (add32 t1 t2) (ra s) (rb s) (rc s) (add32 (rd s) t1) (re s) (rf s) (rg s).

Definition regs_of (h : list Z) : regs :=
  Regs (nth 0 h 0) (nth 1 h 0) (nth 2 h 0) (nth 3 h 0)
       (nth 4 h 0) (nth 5 h 0) (nth 6 h 0) (nth 7 h 0).

Definition list_of (s : regs) : list Z :=
  [ra s; rb s; rc s; rd s; re s; rf s; rg s; rh s].

Definition compress (h : list Z) (block : list Z) : list Z :=
  let s := fold_left round (combine K (schedule block)) (regs_of h) in
  map (fun p => add32 (fst p) (snd p)) (combine h (list_of s)).

Definition digest (msg : list Z) : list Z :=
  let padded := pad msg in
  fold_left compress (chunks 64 (length padded / 64) padded) H0.

Definition hex_digit (d : Z) : ascii :=
  nth (Z.to_nat d) (list_ascii_of_string "0123456789abcdef") "0"%char.

Definition hex_word (w : Z) : list ascii :=
  map (fun i => hex_digit (Z.land (Z.shiftr w (4 * Z.of_nat i)) 15)) (rev (seq 0 8)).

(** [hexdigest]: the digest as 64 lowercase hexadecimal characters. *)
Definition hexdigest (msg : list Z) : string :=
  string_of_list_ascii (concat (map hex_word (digest msg))).

End SHA256.

(** ** Hashing ([hash_password]) *)

(** [str.encode()]: a [string] is kept as the bytes of its UTF-8
    encoding, so encoding reads the bytes off. *)
Definition encode (s : string) : list Z :=
  map (fun c => Z.of_N (N_of_ascii c)) (list_ascii_of_string s).

Definition hash_password (password : string) : string :=
  SHA256.hexdigest (encode password).

(** ** Results, exceptions and user feedback *)

Inductive exn :=
| FileNotFoundError   (* the path names no file *)
| ParserError         (* [pd.read_csv] cannot read the file's text *)
| OSError             (* a write into a directory that does not exist *)
| IndexError          (* an index past the end of a tuple *)
| TypeError           (* a column with a time zone compared with a timestamp without *)
| DivideByZero.       (* a division whose divisor is zero *)

Inductive result (A : Type) :=
| Ok (a : A)
| Raise (e : exn).
Arguments Ok {A} a.
Arguments Raise {A} e.

Definition bind {A B} (r : result A) (k : A -> result B) : result B :=
  match r with
  | Ok a => k a
  | Raise e => Raise e
  end.

Notation "x <- r ;; k" := (bind r (fun x => k))
  (at level 100, r at next level, right associativity).

(** What a handler shows to the user ([st.error], [st.success],
    [st.warning]). *)
Inductive feedback :=
| st_error (msg : string)
| st_success (msg : string)
| st_warning (msg : string).

(** Python truth value of a [str]: only the empty string is false. *)
Definition truthy (s : string) : bool :=
  match s with
  | EmptyString => false
  | String _ _ => true
  end.

(** ** Tables *)

(** A row of [users.csv]: columns [username] and [password] (the digest). *)
Record user := User { username : string; password : string }.

(** A row of [revtee_data.csv], with the [Date] column of type [D]: the
    field text right after [pd.read_csv], a timestamp or [NaT] after
    [pd.to_datetime(..., errors='coerce')]. *)
Record sale (D : Type) := Sale {
  Date : D;
  Produits_vendus : string;
  Ventes : Z;
  Visiteurs : Z;
  Conversions : Z;
  Revenus : Q
}.
Arguments Sale {D}.
Arguments Date {D}.
Arguments Produits_vendus {D}.
Arguments Ventes {D}.
Arguments Visiteurs {D}.
Arguments Conversions {D}.
Arguments Revenus {D}.

(** A [datetime64[ns]] value: nanoseconds since the epoch, [None] for
    [NaT]. *)
Definition Timestamp := option Z.

(** A [datetime.date], as the number of days since the epoch. *)
Definition date := Z.

(** The files: path to text.  A path is read as it is written (one
    path for one file), so paths are meant in normal form, see
    [normal_path]. *)
Abbreviation filesystem := (gmap string string).

Definition users_file_path : string := "users.csv".
Definition data_file_path : string := "revtee_data.csv".

(** ** Timestamps and masks *)

(** [pd.to_datetime(d)] for a [datetime.date]: midnight of that day. *)
Definition to_datetime (d : date) : Z := d * 86400000000000.

(** [column >= t] and [column <= t] on one cell; every comparison with
    [NaT] is false. *)
Definition ts_ge (c : Timestamp) (t : Z) : bool :=
  match c with
  | Some x => t <=? x
  | None => false
  end.

Definition ts_le (c : Timestamp) (t : Z) : bool :=
  match c with
  | Some x => x <=? t
  | None => false
  end.

(** [Series.isin(values)] on one cell. *)
Definition isin (x : string) (values : list string) : bool :=
  bool_decide (x ∈ values).

(** [DataFrame.empty] for a frame that has columns: no rows. *)
Definition empty {A} (df : list A) : bool :=
  match df with
  | [] => true
  | _ :: _ => false
  end.

(** [df.loc[mask, column] = value]: the rows selected by [mask] get the
    update, the others are kept; the frame is changed in place. *)
Definition loc_assign {A} (mask : A -> bool) (upd : A -> A) (df : list A) : list A :=
  map (fun r => if mask r then upd r else r) df.

(** [pd.concat([a, b], ignore_index=True)]: the rows of [a], then those
    of [b], renumbered from 0. *)
Definition concat_frames {A} (a b : list A) : list A := a ++ b.

(** ** Authentication *)

Definition authenticate (uname pwd : string) (users : list user) : bool :=
  let hashed_password := hash_password pwd in
  let user_row :=
    List.filter (fun r => bool_decide (username r = uname)
                          && bool_decide (password r = hashed_password)) users in
  negb (empty user_row).

Definition is_admin (uname : string) : bool := bool_decide (uname = "admin").

(** ** Filters *)

Definition date_mask (date_range : date * date) (r : sale Timestamp) : bool :=
  ts_ge (Date r) (to_datetime (fst date_range))
  && ts_le (Date r) (to_datetime (snd date_range)).

(** The frame [filtered_data] computed under "Apply filters". *)
Definition filtered_data (data : list (sale Timestamp)) (date_range : date * date)
    (selected_products : list string) : list (sale Timestamp) :=
  if bool_decide ("All" ∈ selected_products) then
    List.filter (date_mask date_range) data
  else
    List.filter (fun r => date_mask date_range r
                          && isin (Produits_vendus r) selected_products) data.

(** The value of [selected_products] after the same block. *)
Definition selected_products_after (selected_products : list string) : list string :=
  if bool_decide ("All" ∈ selected_products) then ["All"] else selected_products.

(** ** Performance indicators *)

(** [Series.sum()] of an [int64] column: the sum, wrapped to 64 bits.
    The sum of no rows is 0.  The integer columns are taken to be [int64]
    columns, as [pd.read_csv] makes them of integers that fit. *)
Definition wrap_int64 (z : Z) : Z :=
  (z + 9223372036854775808) mod 18446744073709551616 - 9223372036854775808.

Definition sum_int64 (col : list Z) : Z :=
  fold_left (fun acc x => wrap_int64 (acc + x)) col 0.

(** [Series.sum()] of the revenue column.  Revenues and rates are kept as
    exact rationals; binary rounding is left out. *)
Definition sum_Q (col : list Q) : Q :=
  fold_left Qplus col 0%Q.

(** [a / b] on two column sums.  A zero divisor is a fault
    ([ZeroDivisionError] on Python numbers; on numpy's, a divide-by-zero
    warning with [inf] or [nan] as the value): the model stops there. *)
Definition true_divide (a b : Z) : result Q :=
  if b =? 0 then Raise DivideByZero else Ok (inject_Z a / inject_Z b)%Q.

Record KPISet := KPIs {
  total_sales : Z;
  total_visitors : Z;
  conversion_rate : Q;
  total_revenue : Q
}.

(** The four metrics of one KPI row, computed on the frame [df]
    ([filtered_data] for all products, [product_data] for one). *)
Definition indicators (df : list (sale Timestamp)) : result KPISet :=
  let total_sales := sum_int64 (map Ventes df) in
  let total_visitors := sum_int64 (map Visiteurs df) in
  conversion_rate <-
    (if 0 <? total_visitors then
       q <- true_divide (sum_int64 (map Conversions df)) total_visitors ;;
       Ok (q * 100)%Q
     else Ok 0%Q) ;;
  let total_revenue := sum_Q (map Revenus df) in
  Ok (KPIs total_sales total_visitors conversion_rate total_revenue).

Inductive kpi_view :=
| NoProduct (warning : feedback)
| AllProducts (k : KPISet)
| PerProduct (ks : list (string * KPISet)).

Fixpoint indicators_per_product (df : list (sale Timestamp)) (products : list string)
    : result (list (string * KPISet)) :=
  match products with
  | [] => Ok []
  | product :: rest =>
      let product_data :=
        List.filter (fun r => bool_decide (Produits_vendus r = product)) df in
      k <- indicators product_data ;;
      ks <- indicators_per_product df rest ;;
      Ok ((product, k) :: ks)
  end.

(** The "Performance Indicators" block, on [filtered_data] and the
    value of [selected_products] left by the filter block. *)
Definition performance_indicators (df : list (sale Timestamp))
    (selected_products : list string) : result kpi_view :=
  if (length selected_products =? 0)%nat then
    Ok (NoProduct (st_warning "Please select at least one product to display indicators."))
  else if bool_decide ("All" ∈ selected_products) then
    k <- indicators df ;; Ok (AllProducts k)
  else
    ks <- indicators_per_product df selected_products ;; Ok (PerProduct ks).

(** ** Files and handlers *)

(** The session between two runs of the script: the global frame
    [users_data] and the files. *)
Record state := State {
  users_data : list user;
  files : filesystem
}.

(** The directory part of a path: everything up to and including the
    last "/", nothing for a bare file name. *)
Fixpoint has_separator (path : string) : bool :=
  match path with
  | EmptyString => false
  | String c rest => Ascii.eqb c "/" || has_separator rest
  end.

Fixpoint dirname (path : string) : string :=
  match path with
  | EmptyString => EmptyString
  | String c rest => if has_separator path then String c (dirname rest) else EmptyString
  end.

(** The names of a path, between its separators. *)
Fixpoint path_names (path : string) : list string :=
  match path with
  | EmptyString => [EmptyString]
  | String c rest =>
      if Ascii.eqb c "/" then EmptyString :: path_names rest
      else match path_names rest with
           | name :: names => String c name :: names
           | [] => [String c EmptyString]
           end
  end.

(** A path in normal form: names separated by single "/", after an
    optional leading "/", none of them empty, "." or "..".  On such
    paths reading the path as a text and reading it as the operating
    system does agree. *)
Definition normal_path (path : string) : bool :=
  match path_names path with
  | [] => false
  | first :: names =>
      let names := if bool_decide (first = "") then names else first :: names in
      negb (bool_decide (names = []))
      && forallb (fun name => negb (bool_decide (name = "") || bool_decide (name = ".")
                                    || bool_decide (name = ".."))) names
  end.

(** [os.path.isdir(path)], by the files: a file is somewhere under it. *)
Definition isdir (path : string) (fs : filesystem) : bool :=
  existsb (fun entry => String.prefix (path ++ "/") (fst entry)) (map_to_list fs).

(** The check [to_csv] makes before it writes: the directory of the path
    has to exist, or the write is an [OSError].  The files are a map from
    paths, so the directories that exist are the working directory (no
    directory part), the root, and every directory that holds a file. *)
Definition check_parent_directory (file_path : string) (fs : filesystem) : bool :=
  let parent := dirname file_path in
  bool_decide (parent = "") || bool_decide (parent = "/")
  || existsb (fun entry => String.prefix parent (fst entry)) (map_to_list fs).

Section Script.

(** The pandas side of the CSV files, on their text.
    [users_to_csv df] is the text [df.to_csv(index=False)] writes;
    [users_of_csv] and [sales_of_csv] are what [pd.read_csv] makes of a
    text, [None] when it cannot read it.  [to_datetime_coerce col] is the
    cell parser [pd.to_datetime(col, errors='coerce')] settles on for
    the column [col]: it gives [None] ([NaT]) on a cell it cannot
    parse. *)
Variable users_to_csv : list user -> string.
Variable users_of_csv : string -> option (list user).
Variable sales_of_csv : string -> option (list (sale string)).
Variable to_datetime_coerce : list string -> string -> Timestamp.

Definition read_csv {A} (of_csv : string -> option A) (file_path : string)
    (fs : filesystem) : result A :=
  match fs !! file_path with
  | None => Raise FileNotFoundError
  | Some text =>
      match of_csv text with
      | Some df => Ok df
      | None => Raise ParserError
      end
  end.

(** [df.to_csv(file_path, index=False)], once the directory of the path
    is known to exist: the file is overwritten.  The handlers write to
    [users_file_path], in the working directory; [load_users] writes to
    the path it is given and the check comes first. *)
Definition to_csv (df : list user) (file_path : string) (fs : filesystem)
    : filesystem :=
  <[file_path := users_to_csv df]> fs.

Definition load_users (file_path : string) (fs : filesystem)
    : result (list user) * filesystem :=
  match read_csv users_of_csv file_path fs with
  | Ok users => (Ok users, fs)
  | Raise FileNotFoundError =>
      let default_users := [User "admin" (hash_password "admin")] in
      if check_parent_directory file_path fs
      then (Ok default_users, to_csv default_users file_path fs)
      else (Raise OSError, fs)
  | Raise e => (Raise e, fs)
  end.

(** [load_data], on its first call for [file_path] (later calls are
    served from [st.cache_data]). *)
Definition load_data (file_path : string) (fs : filesystem)
    : result (list (sale Timestamp)) :=
  data <- read_csv sales_of_csv file_path fs ;;
  let parse := to_datetime_coerce (map Date data) in
  Ok (map (fun r => Sale (parse (Date r)) (Produits_vendus r) (Ventes r)
                         (Visiteurs r) (Conversions r) (Revenus r)) data).

(** The frame the "Add User" handler builds and writes. *)
Definition updated_users_data (new_username new_password : string)
    (users : list user) : list user :=
  let new_user_data := [User new_username (hash_password new_password)] in
  concat_frames users new_user_data.

(** [if add_user_button: ...] *)
Definition add_user_button (new_username new_password : string) (s : state)
    : feedback * state :=
  if negb (truthy new_username) || negb (truthy new_password) then
    (st_error "Please enter a username and password.", s)
  else
    let updated := updated_users_data new_username new_password (users_data s) in
    (st_success "New user added successfully.",
     State (users_data s) (to_csv updated users_file_path (files s))).

(** The two [.loc] assignments of the "Edit User" handler. *)
Definition edited_users_data (edit_username new_username_edit new_password_edit : string)
    (users : list user) : list user :=
  let renamed :=
    loc_assign (fun r => bool_decide (username r = edit_username))
               (fun r => User new_username_edit (password r)) users in
  loc_assign (fun r => bool_decide (username r = new_username_edit))
             (fun r => User (username r) (hash_password new_password_edit)) renamed.

(** [if edit_user_button: ...] *)
Definition edit_user_button (edit_username new_username_edit new_password_edit : string)
    (s : state) : feedback * state :=
  if negb (truthy new_username_edit) || negb (truthy new_password_edit) then
    (st_error "Please enter a new username and password.", s)
  else
    let users := edited_users_data edit_username new_username_edit new_password_edit
                                   (users_data s) in
    (st_success "User information successfully updated.",
     State users (to_csv users users_file_path (files s))).

End Script.

(** A writer for frames whose fields need no quoting, for the examples:
    a header line, then one [username,password] line per row. *)
Definition plain_csv (df : list user) : string :=
  "username,password" ++ String "010" ""
  ++ String.concat "" (map (fun r => username r ++ "," ++ password r ++ String "010" "") df).

(** ** The sidebar widgets *)

(** [Timestamp.date()]: the day a timestamp falls on. *)
Definition timestamp_date (t : Z) : date := t / 86400000000000.

(** The value the date input starts with: the days of
    [data['Date'].min()] and [data['Date'].max()], which skip [NaT].  It
    is asked for only when some row has a date. *)
Definition default_date_range (data : list (sale Timestamp)) : option (date * date) :=
  match omap Date data with
  | [] => None
  | t :: ts => Some (timestamp_date (foldr Z.min t ts), timestamp_date (foldr Z.max t ts))
  end.

(** [Series.unique()]: the values in order of first appearance. *)
Fixpoint unique (l : list string) : list string :=
  match l with
  | [] => []
  | x :: l' => x :: List.filter (fun y => negb (bool_decide (y = x))) (unique l')
  end.

(** The options of the product filter, and those of the add-data form. *)
Definition product_options (data : list (sale Timestamp)) : list string :=
  "All" :: unique (map Produits_vendus data).

Definition form_product_options (data : list (sale Timestamp)) : list string :=
  unique (map Produits_vendus data) ++ ["Add a New Product"].

(** ** One run of the script *)

(** [st.session_state.username]: not set yet, [None], or a string. *)
Inductive slot :=
| Unset
| PyNone
| Str (s : string).

(** [st.session_state]; the key [authenticated] is not there before the
    first run. *)
Record session_state := Session {
  authenticated : option bool;
  session_username : slot
}.

(** What the script runs in: the files, the entry [st.cache_data] keeps
    for [load_data(data_file_path)] (if any), and the state of the one
    browser session. *)
Record world := World {
  disk : filesystem;
  data_cache : option (list (sale Timestamp));
  session : session_state
}.

(** The button or form that triggered the run, with the values of the
    inputs that go with it. *)
Inductive click :=
| NoClick
| Login (uname pwd : string)
| Logout
| AddData (new_date : date) (product_selection new_product_input : string)
          (new_sales new_visitors new_conversions : Z) (new_revenue : Q)
| AddUser (new_username new_password : string)
| EditUser (edit_username new_username_edit new_password_edit : string).

(** The widget values of a run: the click, and the two sidebar filters. *)
Record widgets := Widgets {
  clicked : click;
  date_input : date * date;
  multiselect : list string
}.

(** How a run ends: at the end of the script, at [st.rerun()], or on an
    exception that nothing catches. *)
Inductive ending :=
| finished
| rerun
| uncaught (e : exn)
| attribute_error.

Record outcome := Outcome {
  world_after : world;
  shown : list feedback;
  ended : ending
}.

(** A [Date] cell of the frame the add-data handler writes: a timestamp
    of the loaded data, or the [datetime.date] of the form. *)
Inductive date_cell :=
| Stamp (t : Timestamp)
| Day (d : date).

Definition stamped (r : sale Timestamp) : sale date_cell :=
  Sale (Stamp (Date r)) (Produits_vendus r) (Ventes r) (Visiteurs r)
       (Conversions r) (Revenus r).

(** [data['Date'].isna().all()] *)
Definition all_isna (data : list (sale Timestamp)) : bool :=
  forallb (fun r => match Date r with None => true | Some _ => false end) data.

(** The sidebar and dashboard part of a run, as far as messages go, for
    a date input with both ends chosen and a [Date] column of timestamps
    without time zone. *)
Definition dashboard (data : list (sale Timestamp)) (ui : widgets)
    : result (list feedback) :=
  if all_isna data then
    Ok [st_error "The 'Date' column contains no valid data. Check your CSV file."]
  else
    view <- performance_indicators
              (filtered_data data (date_input ui) (multiselect ui))
              (selected_products_after (multiselect ui)) ;;
    match view with
    | NoProduct warning => Ok [warning]
    | _ => Ok []
    end.

(** [date_range[i]] on the tuple [st.sidebar.date_input] returns: the
    two days of the range, the first one alone while the range is half
    selected, or none. *)
Definition getitem (date_range : list date) (i : nat) : result date :=
  match date_range !! i with
  | Some day => Ok day
  | None => Raise IndexError
  end.

(** The same part of a run for any value of the date input and any
    [Date] column, with a time zone ([tz_aware], as [pd.to_datetime]
    makes it when the cells of the file carry an offset) or without.
    The two comparisons of the filter are evaluated in order: the first
    day is taken, the column compared with its midnight, then the second
    day is taken. *)
Definition dashboard_run (tz_aware : bool) (data : list (sale Timestamp))
    (date_range : list date) (selected_products : list string)
    : result (list feedback) :=
  if all_isna data then
    Ok [st_error "The 'Date' column contains no valid data. Check your CSV file."]
  else
    first_day <- getitem date_range 0 ;;
    _ <- (if tz_aware then Raise TypeError else Ok tt) ;;
    last_day <- getitem date_range 1 ;;
    view <- performance_indicators
              (filtered_data data (first_day, last_day) selected_products)
              (selected_products_after selected_products) ;;
    match view with
    | NoProduct warning => Ok [warning]
    | _ => Ok []
    end.

Section Run.

Variable users_to_csv : list user -> string.
Variable users_of_csv : string -> option (list user).
Variable sales_of_csv : string -> option (list (sale string)).
Variable to_datetime_coerce : list string -> string -> Timestamp.
(** The text [updated_data.to_csv(index=False)] writes. *)
Variable sales_to_csv : list (sale date_cell) -> string.

(** [load_data(data_file_path)] behind [st.cache_data]: a kept result is
    returned without reading the file; a fresh one is kept, an exception
    is not. *)
Definition cached_load_data (w : world)
    : result (list (sale Timestamp)) * option (list (sale Timestamp)) :=
  match data_cache w with
  | Some data => (Ok data, Some data)
  | None =>
      match load_data sales_of_csv to_datetime_coerce data_file_path (disk w) with
      | Ok data => (Ok data, Some data)
      | Raise e => (Raise e, None)
      end
  end.

(** [if submitted: ...] of the add-data form. *)
Definition add_data_submitted (new_date : date) (product_selection new_product_input : string)
    (new_sales new_visitors new_conversions : Z) (new_revenue : Q)
    (data : list (sale Timestamp)) (fs : filesystem) : feedback * filesystem :=
  let new_product :=
    if bool_decide (product_selection = "Add a New Product")
    then new_product_input else product_selection in
  if negb (truthy new_product) then
    (st_error "Please enter the name of the new product.", fs)
  else
    let new_df := [Sale (Day new_date) new_product new_sales new_visitors
                        new_conversions new_revenue] in
    let updated_data := concat_frames (map stamped data) new_df in
    (st_success "Data successfully added and CSV file updated.",
     <[data_file_path := sales_to_csv updated_data]> fs).

(** The admin part of a run, for the click that triggered it. *)
Definition admin_block (c : click) (data : list (sale Timestamp))
    (users : list user) (fs : filesystem) : list feedback * filesystem :=
  match c with
  | AddData new_date product_selection new_product_input
            new_sales new_visitors new_conversions new_revenue =>
      let '(msg, fs') :=
        add_data_submitted new_date product_selection new_product_input
                           new_sales new_visitors new_conversions new_revenue data fs in
      ([msg], fs')
  | AddUser new_username new_password =>
      let '(msg, s') :=
        add_user_button users_to_csv new_username new_password (State users fs) in
      ([msg], files s')
  | EditUser edit_username new_username_edit new_password_edit =>
      let '(msg, s') :=
        edit_user_button users_to_csv edit_username new_username_edit
                         new_password_edit (State users fs) in
      ([msg], files s')
  | _ => ([], fs)
  end.

(** One run of the script, top to bottom. *)
Definition run_script (ui : widgets) (w : world) : outcome :=
  let '(loaded, fs) := load_users users_to_csv users_of_csv users_file_path (disk w) in
  match loaded with
  | Raise e => Outcome (World fs (data_cache w) (session w)) [] (uncaught e)
  | Ok users =>
      let uname := session_username (session w) in
      let is_authenticated :=
        match authenticated (session w) with
        | Some b => b
        | None => false
        end in
      if negb is_authenticated then
        match clicked ui with
        | Login u p =>
            if authenticate u p users then
              Outcome (World fs (data_cache w) (Session (Some true) (Str u)))
                      [st_success "Login successful! Redirecting to the dashboard..."]
                      rerun
            else
              Outcome (World fs (data_cache w) (Session (Some false) uname))
                      [st_error "Invalid username or password. Please try again."]
                      finished
        | _ => Outcome (World fs (data_cache w) (Session (Some false) uname)) [] finished
        end
      else
        match cached_load_data (World fs (data_cache w) (session w)) with
        | (Raise e, cache) => Outcome (World fs cache (session w)) [] (uncaught e)
        | (Ok data, cache) =>
            match clicked ui with
            | Logout =>
                Outcome (World fs cache (Session (Some false) PyNone))
                        [st_success "You have been logged out."] rerun
            | c =>
                match dashboard data ui with
                | Raise e => Outcome (World fs cache (session w)) [] (uncaught e)
                | Ok msgs =>
                    match uname with
                    | Unset => Outcome (World fs cache (session w)) msgs attribute_error
                    | PyNone => Outcome (World fs cache (session w)) msgs finished
                    | Str u =>
                        if is_admin u then
                          let '(more, fs') := admin_block c data users fs in
                          Outcome (World fs' cache (session w)) (msgs ++ more) finished
                        else Outcome (World fs cache (session w)) msgs finished
                    end
                end
            end
        end
  end.

(** Runs one after the other, each on the world the last one left. *)
Definition run_many (uis : list widgets) (w : world) : world :=
  fold_left (fun w ui => world_after (run_script ui w)) uis w.

End Run.

(** ** Reading aids for the properties *)

(** What the two assignments of the edit handler do to one row. *)
Definition edited_row (old new pw : string) (r : user) : user :=
  let r1 := if bool_decide (username r = old) then User new (password r) else r in
  if bool_decide (username r1 = new) then User (username r1) (hash_password pw) else r1.

(** The date test of the filter, in words and in nanoseconds: the row
    has a date, and its timestamp lies between midnight of the first day
    of the range and midnight of the last, both ends included (a day has
    86400000000000 nanoseconds). *)
Definition within_date_range (date_range : date * date) (r : sale Timestamp) : Prop :=
  match Date r with
  | Some t => fst date_range * 86400000000000 <= t <= snd date_range * 86400000000000
  | None => False
  end.

#[local] Instance within_date_range_dec date_range r :
  Decision (within_date_range date_range r).
Proof. unfold within_date_range. destruct (Date r); apply _. Defined.

(** The same row with another product name. *)
Definition with_product (name : string) (r : sale Timestamp) : sale Timestamp :=
  Sale (Date r) name (Ventes r) (Visiteurs r) (Conversions r) (Revenus r).

(** [filtered_data] as one boolean mask on the rows of [data], whichever
    branch runs. *)
Definition row_mask (date_range : date * date) (selected_products : list string)
    (r : sale Timestamp) : bool :=
  if bool_decide ("All" ∈ selected_products) then date_mask date_range r
  else date_mask date_range r && isin (Produits_vendus r) selected_products.

(** The sum of a column as a plain integer, with no wrapping. *)
Definition column_sum (col : list Z) : Z := foldr Z.add 0 col.

(** The indicators of a frame, once known not to fail. *)
Definition kpis_of (df : list (sale Timestamp)) : KPISet :=
  let total_visitors := sum_int64 (map Visiteurs df) in
  KPIs (sum_int64 (map Ventes df))
       total_visitors
       (if 0 <? total_visitors then
          (inject_Z (sum_int64 (map Conversions df)) / inject_Z total_visitors * 100)%Q
        else 0%Q)
       (sum_Q (map Revenus df)).

(** A session that is logged in knows under which name. *)
Definition session_ok (s : session_state) : Prop :=
  authenticated s = Some true -> exists u, session_username s = Str u.

(** The session of a browser that has not run the script yet. *)
Definition fresh_session : session_state := Session None Unset.

(** The product the add-data form stands for: what is typed as a new
    name when the last entry of the list is picked, the picked entry
    otherwise. *)
Definition chosen_product (product_selection new_product_input : string) : string :=
  if bool_decide (product_selection = "Add a New Product")
  then new_product_input else product_selection.

(** Stand-ins for the pandas side, for the examples: a reader that
    knows the texts [plain_csv] writes for the tables listed, and a writer
    for the sales file that lists the products of the rows. *)
Definition sample_users_of_csv (tables : list (list user)) (text : string)
    : option (list user) :=
  List.find (fun T => String.eqb (plain_csv T) text) tables.

Definition sample_sales_to_csv (rows : list (sale date_cell)) : string :=
  String.concat ";" (map Produits_vendus rows).

(** * Properties *)

(** ** Hashing *)

Example sha256_constants :
  length SHA256.primes = 64%nat
  /\ nth 0 SHA256.K 0 = 0x428a2f98 /\ nth 63 SHA256.K 0 = 0xc67178f2
  /\ nth 0 SHA256.H0 0 = 0x6a09e667 /\ nth 7 SHA256.H0 0 = 0x5be0cd19.
Proof. vm_compute. repeat split. Qed.

Example hash_password_empty :
  hash_password "" = "e3b0c44298fc1c149afbf4c8996fb92427ae41e4649b934ca495991b7852b855".
Proof. vm_compute. reflexivity. Qed.

Example hash_password_abc :
  hash_password "abc" = "ba7816bf8f01cfea414140de5dae2223b00361a396177a9cb410ff61f20015ad".
Proof. vm_compute. reflexivity. Qed.


Example hash_password_two_blocks :
  hash_password "abcdbcdecdefdefgefghfghighijhijkijkljklmklmnlmnomnopnopq"
  = "248d6a61d20638b8e5c026930c3e6039a33ce45964ff2167f6ecedd419db06c1".
Proof. vm_compute. reflexivity. Qed.

(** ** Boolean masks *)

Section Masks.
Context {A : Type}.
Implicit Types (mask : A -> bool) (l : list A).

Lemma mask_elem_of mask l x :
  x ∈ List.filter mask l <-> x ∈ l /\ mask x = true.
Proof. rewrite !list_elem_of_In. apply filter_In. Qed.

Lemma mask_idem mask l :
  List.filter mask (List.filter mask l) = List.filter mask l.
Proof.
  induction l as [|x l IH]; simpl; [reflexivity|].
  destruct (mask x) eqn:Hx; simpl; [rewrite Hx; f_equal|]; exact IH.
Qed.

Lemma mask_sublist mask l : sublist (List.filter mask l) l.
Proof.
  induction l as [|x l IH]; simpl; [constructor|].
  destruct (mask x); [apply sublist_skip | apply sublist_cons]; exact IH.
Qed.

Lemma mask_ext mask mask' l :
  (forall x, x ∈ l -> mask x = mask' x) ->
  List.filter mask l = List.filter mask' l.
Proof.
  induction l as [|x l IH]; intros Hext; simpl; [reflexivity|].
  rewrite <- (Hext x) by left.
  rewrite IH; [reflexivity|]. intros y Hy. apply Hext. by right.
Qed.

Lemma mask_map {B} (f : B -> A) mask (l : list B) :
  List.filter mask (map f l) = map f (List.filter (fun y => mask (f y)) l).
Proof.
  induction l as [|y l IH]; simpl; [reflexivity|].
  destruct (mask (f y)); simpl; by rewrite IH.
Qed.

Lemma empty_false_iff l : empty l = false <-> exists x, x ∈ l.
Proof.
  destruct l as [|x l]; simpl; split.
  - discriminate.
  - intros [x Hx]. by apply not_elem_of_nil in Hx.
  - intros _. exists x. left.
  - reflexivity.
Qed.

End Masks.

(** ** Authentication *)

Lemma authenticate_true_iff (T : list user) (u p : string) :
  authenticate u p T = true
  <-> exists r, r ∈ T /\ username r = u /\ password r = hash_password p.
Proof.
  unfold authenticate. rewrite negb_true_iff, empty_false_iff.
  split; intros [r Hr]; exists r.
  - apply mask_elem_of in Hr as [Hin Hm].
    apply andb_true_iff in Hm as [Hu Hp].
    apply bool_decide_eq_true in Hu, Hp. auto.
  - destruct Hr as (Hin & Hu & Hp). apply mask_elem_of. split; [exact Hin|].
    apply andb_true_iff. split; by apply bool_decide_eq_true.
Qed.

Lemma authenticate_false_iff (T : list user) (u p : string) :
  authenticate u p T = false
  <-> forall r, r ∈ T -> username r = u -> password r <> hash_password p.
Proof.
  rewrite <- not_true_iff_false, authenticate_true_iff. split.
  - intros Hno r Hin Hu Hp. apply Hno. eauto.
  - intros Hall (r & Hin & Hu & Hp). exact (Hall r Hin Hu Hp).
Qed.

(** C1.  [authenticate u p T] is true exactly when [T] has a row whose
    username is [u] (the same string, byte for byte) and whose stored
    digest is [hash_password p].  It is false in every other case: in
    particular when the rows named [u] all hold another digest, and when
    no row is named [u], whether or not the digest of [p] is stored under
    another name. *)
Theorem authenticate_spec (T : list user) (u p : string) :
  (authenticate u p T = true
   <-> exists r, r ∈ T /\ username r = u /\ password r = hash_password p)
  /\ (authenticate u p T = false
      <-> ~ exists r, r ∈ T /\ username r = u /\ password r = hash_password p)
  /\ ((forall r, r ∈ T -> username r = u -> password r <> hash_password p) ->
      authenticate u p T = false)
  /\ ((forall r, r ∈ T -> username r <> u) -> authenticate u p T = false).
Proof.
  split; [apply authenticate_true_iff|].
  split; [by rewrite <- not_true_iff_false, authenticate_true_iff|].
  split; intros H; apply authenticate_false_iff; [exact H|].
  intros r Hin Hu. by apply H in Hin.
Qed.

Example authenticate_admin_admin :
  authenticate "admin" "admin" [User "admin" (hash_password "admin")] = true.
Proof. vm_compute. reflexivity. Qed.

Example authenticate_admin_wrong :
  authenticate "admin" "wrong" [User "admin" (hash_password "admin")] = false.
Proof. vm_compute. reflexivity. Qed.

Example authenticate_case_sensitive :
  authenticate "Admin" "admin" [User "admin" (hash_password "admin")] = false.
Proof. vm_compute. reflexivity. Qed.

Example authenticate_other_name_same_digest :
  authenticate "root" "admin" [User "admin" (hash_password "admin")] = false.
Proof. vm_compute. reflexivity. Qed.

(** ** Editing a user *)

Lemma edited_users_data_map old new pw (T : list user) :
  edited_users_data old new pw T = map (edited_row old new pw) T.
Proof. unfold edited_users_data, loc_assign. by rewrite map_map. Qed.

Lemma edited_row_old old new pw r :
  username r = old -> edited_row old new pw r = User new (hash_password pw).
Proof.
  intros Hr. unfold edited_row.
  rewrite (bool_decide_eq_true_2 _ Hr). simpl.
  by rewrite bool_decide_eq_true_2.
Qed.

Lemma edited_row_username old new pw r :
  old <> new -> username (edited_row old new pw r) <> old.
Proof.
  intros Hne. unfold edited_row.
  destruct (bool_decide (username r = old)) eqn:Hold; simpl.
  - rewrite bool_decide_eq_true_2 by reflexivity. simpl. congruence.
  - apply bool_decide_eq_false in Hold.
    destruct (bool_decide (username r = new)); simpl; exact Hold.
Qed.

Lemma mask_length_pos {A} (mask : A -> bool) (l : list A) :
  (0 < length (List.filter mask l))%nat -> exists x, x ∈ l /\ mask x = true.
Proof.
  destruct (List.filter mask l) as [|x k] eqn:Hk; simpl; [lia|]. intros _.
  exists x. apply mask_elem_of. rewrite Hk. left.
Qed.

(** C2.  On a table with exactly one row named "admin" and no row named
    "root", the edit handler with old name "admin", new name "root" and
    new password "x" succeeds and leaves a table on which
    [authenticate "root" "x"] is true and [authenticate "admin" p] is
    false for every password [p]. *)
Theorem edit_admin_to_root (users_to_csv : list user -> string) (s : state) :
  length (List.filter (fun r => bool_decide (username r = "admin")) (users_data s)) = 1%nat ->
  (forall r, r ∈ users_data s -> username r <> "root") ->
  exists s',
    edit_user_button users_to_csv "admin" "root" "x" s
      = (st_success "User information successfully updated.", s')
    /\ users_data s' = edited_users_data "admin" "root" "x" (users_data s)
    /\ files s' = <[users_file_path := users_to_csv (users_data s')]> (files s)
    /\ authenticate "root" "x" (users_data s') = true
    /\ forall p, authenticate "admin" p (users_data s') = false.
Proof.
  intros Hone _. eexists. split; [reflexivity|]. simpl.
  split; [reflexivity|]. split; [reflexivity|].
  rewrite edited_users_data_map. split.
  - destruct (mask_length_pos (fun r => bool_decide (username r = "admin"))
                (users_data s)) as (r0 & Hin & Hadmin); [lia|].
    apply bool_decide_eq_true in Hadmin.
    apply authenticate_true_iff. exists (User "root" (hash_password "x")).
    split; [|split; reflexivity].
    rewrite <- (edited_row_old "admin" "root" "x" r0 Hadmin).
    by apply list_elem_of_fmap_2.
  - intros p. apply authenticate_false_iff. intros r Hin Hname.
    apply list_elem_of_fmap in Hin as (r0 & -> & _).
    by apply edited_row_username in Hname.
Qed.

Lemma edit_admin_to_root_witness :
  exists s',
    edit_user_button plain_csv "admin" "root" "x"
        (State [User "admin" (hash_password "admin")] ∅)
      = (st_success "User information successfully updated.", s')
    /\ users_data s' = [User "root" (hash_password "x")]
    /\ authenticate "root" "x" (users_data s') = true
    /\ forall p, authenticate "admin" p (users_data s') = false.
Proof.
  destruct (edit_admin_to_root plain_csv
              (State [User "admin" (hash_password "admin")] ∅))
    as (s' & Hrun & Hdata & _ & Hroot & Hadmin).
  - reflexivity.
  - intros r Hr. apply list_elem_of_singleton in Hr. subst r. discriminate.
  - exists s'. split; [exact Hrun|]. split; [|split; assumption].
    rewrite Hdata. reflexivity.
Defined.

(** ** Filters *)

Lemma date_mask_within date_range r :
  date_mask date_range r = true <-> within_date_range date_range r.
Proof.
  unfold date_mask, within_date_range, ts_ge, ts_le, to_datetime.
  destruct (Date r) as [t|]; [|by split].
  rewrite andb_true_iff, !Z.leb_le. tauto.
Qed.

(** For a row dated by a day (a midnight timestamp) the test compares
    days. *)
Lemma within_date_range_day date_range (r : sale Timestamp) (day : date) :
  Date r = Some (to_datetime day) ->
  within_date_range date_range r <-> fst date_range <= day <= snd date_range.
Proof.
  intros Hday. unfold within_date_range. rewrite Hday.
  unfold to_datetime. lia.
Qed.

Lemma mask_filter {A} (mask : A -> bool) (P : A -> Prop) `{!forall x, Decision (P x)}
    (l : list A) :
  (forall x, mask x = true <-> P x) -> List.filter mask l = filter P l.
Proof.
  intros Hiff. induction l as [|x l IH]; [reflexivity|].
  simpl. rewrite filter_cons, IH.
  destruct (mask x) eqn:Hx, (decide (P x)) as [HP|HP]; try reflexivity.
  - apply Hiff in Hx. contradiction.
  - apply Hiff in HP. congruence.
Qed.

Lemma filtered_data_All data date_range selected_products :
  "All" ∈ selected_products ->
  filtered_data data date_range selected_products
  = List.filter (date_mask date_range) data.
Proof. intros HAll. unfold filtered_data. by rewrite bool_decide_eq_true_2. Qed.

Lemma filtered_data_mask data date_range selected_products :
  filtered_data data date_range selected_products
  = List.filter (row_mask date_range selected_products) data.
Proof.
  unfold filtered_data, row_mask.
  destruct (bool_decide ("All" ∈ selected_products)); reflexivity.
Qed.

(** C4.  Filtering is idempotent: filtering the filtered frame again,
    with the same date range and the same product selection, changes
    nothing. *)
Theorem filtered_data_idempotent (R : list (sale Timestamp)) (d : date * date)
    (p : list string) :
  filtered_data (filtered_data R d p) d p = filtered_data R d p.
Proof. rewrite !filtered_data_mask. apply mask_idem. Qed.

(** The selection the filter block leaves behind filters the same way. *)
Lemma filtered_data_idempotent_after (R : list (sale Timestamp)) (d : date * date)
    (p : list string) :
  filtered_data (filtered_data R d p) d (selected_products_after p)
  = filtered_data R d p.
Proof.
  unfold selected_products_after.
  destruct (bool_decide ("All" ∈ p)) eqn:HAll;
    [|rewrite !filtered_data_mask; apply mask_idem].
  apply bool_decide_eq_true in HAll.
  rewrite (filtered_data_All _ _ ["All"]) by left.
  rewrite (filtered_data_All R) by exact HAll. apply mask_idem.
Qed.

Lemma within_date_range_stamp d (r : sale Timestamp) :
  within_date_range d r
  <-> exists t, Date r = Some t
                /\ fst d * 86400000000000 <= t <= snd d * 86400000000000.
Proof.
  unfold within_date_range. destruct (Date r) as [t|]; split.
  - intros Ht. eauto.
  - intros (t' & [= <-] & Ht). exact Ht.
  - contradiction.
  - intros (t' & Hnone & _). discriminate Hnone.
Qed.

(** Between two midnights, in days: on a day from the first one on and
    before the last one, or at midnight of the last one. *)
Lemma between_midnights_days (lo hi t : Z) :
  lo * 86400000000000 <= t <= hi * 86400000000000
  <-> lo <= timestamp_date t
      /\ (timestamp_date t < hi \/ t = hi * 86400000000000).
Proof.
  unfold timestamp_date.
  pose proof (Z.div_mod t 86400000000000 ltac:(lia)) as Hdiv.
  pose proof (Z.mod_pos_bound t 86400000000000 ltac:(lia)) as Hmod.
  generalize dependent (t / 86400000000000).
  generalize dependent (t mod 86400000000000). intros m Hm q Hq. lia.
Qed.

(** C5.  When the selection contains "All", the filtered
    frame is, in the order of the data, exactly the rows that have a date
    and whose timestamp lies between midnight of the first day of the
    range and midnight of the last, both included.  In days: the rows of
    a day from the first one on and before the last one, and of the last
    day the rows stamped at midnight only.  So a row dated by a day alone
    is kept exactly when its day is in the range, ends included.  The
    product column plays no part: renaming the products of the rows in
    any way gives the same rows, renamed. *)
Theorem filtered_data_All_spec (R : list (sale Timestamp)) (d : date * date)
    (p : list string) :
  "All" ∈ p ->
  filtered_data R d p = filter (within_date_range d) R
  /\ (forall r : sale Timestamp,
        r ∈ filtered_data R d p
        <-> r ∈ R /\ exists t, Date r = Some t
                      /\ fst d * 86400000000000 <= t <= snd d * 86400000000000)
  /\ (forall (r : sale Timestamp) t, Date r = Some t ->
        (r ∈ filtered_data R d p
         <-> r ∈ R /\ fst d <= timestamp_date t
             /\ (timestamp_date t < snd d \/ t = snd d * 86400000000000)))
  /\ (forall (r : sale Timestamp) day, Date r = Some (day * 86400000000000) ->
        (r ∈ filtered_data R d p <-> r ∈ R /\ fst d <= day <= snd d))
  /\ (forall f : sale Timestamp -> string,
        filtered_data (map (fun r => with_product (f r) r) R) d p
        = map (fun r => with_product (f r) r) (filtered_data R d p)).
Proof.
  intros HAll. rewrite !filtered_data_All by exact HAll.
  assert (Hshown : forall r : sale Timestamp,
            r ∈ List.filter (date_mask d) R
            <-> r ∈ R /\ exists t, Date r = Some t
                          /\ fst d * 86400000000000 <= t <= snd d * 86400000000000).
  { intros r. rewrite mask_elem_of, date_mask_within, within_date_range_stamp.
    reflexivity. }
  split; [apply mask_filter, date_mask_within|].
  split; [exact Hshown|]. split; [|split].
  - intros r t Ht. rewrite Hshown, <- between_midnights_days. split.
    + intros (Hr & t' & Ht' & Hbetween). split; [exact Hr|]. congruence.
    + intros [Hr Hbetween]. eauto.
  - intros r day Hday. rewrite Hshown. split.
    + intros (Hr & t' & Ht' & Hbetween). split; [exact Hr|].
      assert (t' = day * 86400000000000) by congruence. lia.
    + intros [Hr Hdays]. split; [exact Hr|]. eexists. split; [exact Hday | lia].
  - intros f. rewrite filtered_data_All by exact HAll.
    rewrite mask_map. reflexivity.
Qed.

Lemma filtered_data_All_spec_witness :
  let R := [ Sale (Some (19723 * 86400000000000)) "Tee" 5 20 2 500%Q;
             Sale None "Tee" 1 1 1 1%Q;
             Sale (Some (19730 * 86400000000000 + 36000000000000)) "Cap" 3 9 1 90%Q;
             Sale (Some (19800 * 86400000000000)) "Cap" 3 9 1 90%Q ] in
  "All" ∈ ["All"; "Cap"]
  /\ filtered_data R (19723, 19730) ["All"; "Cap"]
     = [ Sale (Some (19723 * 86400000000000)) "Tee" 5 20 2 500%Q ].
Proof.
  intros R; split; [left|].
  rewrite (proj1 (filtered_data_All_spec R (19723, 19730) ["All"; "Cap"]
                    ltac:(left))).
  vm_compute. reflexivity.
Defined.

(** C5, by days alone, does not hold: a row stamped at ten in the
    morning of the last day of the range has its day within the range,
    ends included, and is not in the filtered frame. *)
Lemma filtered_data_All_last_day_counterexample :
  let r := Sale (Some (19730 * 86400000000000 + 36000000000000)) "Tee" 5 20 2 500%Q in
  "All" ∈ ["All"]
  /\ Date r = Some (19730 * 86400000000000 + 36000000000000)
  /\ 19723 <= timestamp_date (19730 * 86400000000000 + 36000000000000) <= 19730
  /\ r ∈ [r]
  /\ filtered_data [r] (19723, 19730) ["All"] = [].
Proof.
  intros r. split; [left|]. split; [reflexivity|].
  split; [by vm_compute|]. split; [left | reflexivity].
Qed.

(** C9.  The filtered frame is a subsequence of the data: its rows are
    rows of the data, in the same relative order, none made up, none
    repeated, none changed. *)
Theorem filtered_data_sublist (R : list (sale Timestamp)) (d : date * date)
    (p : list string) :
  sublist (filtered_data R d p) R
  /\ (forall r, r ∈ filtered_data R d p -> r ∈ R)
  /\ (length (filtered_data R d p) <= length R)%nat.
Proof.
  assert (Hsub : sublist (filtered_data R d p) R).
  { rewrite filtered_data_mask. apply mask_sublist. }
  split; [exact Hsub|]. split.
  - intros r Hr. exact (sublist_subseteq _ _ Hsub r Hr).
  - by apply sublist_length.
Qed.

(** ** Missing dates *)

Lemma filtered_data_has_date data date_range selected_products
    (r : sale Timestamp) :
  r ∈ filtered_data data date_range selected_products -> Date r <> None.
Proof.
  rewrite filtered_data_mask, mask_elem_of. intros [_ Hmask] Hnat.
  unfold row_mask, date_mask in Hmask. rewrite Hnat in Hmask. simpl in Hmask.
  destruct (bool_decide ("All" ∈ selected_products)); discriminate.
Qed.

(** C6.  A row whose date cell cannot be parsed is kept by [load_data],
    at its place and with its other cells, with a missing date; and no
    date range and no product selection lets the filter return it. *)
Theorem missing_date_excluded
    (sales_of_csv : string -> option (list (sale string)))
    (to_datetime_coerce : list string -> string -> Timestamp)
    (fs : filesystem) (file_path text : string)
    (raw : list (sale string)) (i : nat) (row : sale string) :
  fs !! file_path = Some text ->
  sales_of_csv text = Some raw ->
  raw !! i = Some row ->
  to_datetime_coerce (map Date raw) (Date row) = None ->
  exists data r,
    load_data sales_of_csv to_datetime_coerce file_path fs = Ok data
    /\ length data = length raw
    /\ data !! i = Some r
    /\ r = Sale None (Produits_vendus row) (Ventes row) (Visiteurs row)
                (Conversions row) (Revenus row)
    /\ forall d p, r ∉ filtered_data data d p.
Proof.
  intros Hfile Hcsv Hrow Hnat. unfold load_data, read_csv.
  rewrite Hfile, Hcsv. simpl. do 2 eexists.
  split; [reflexivity|]. split; [apply length_map|].
  split; [rewrite list_lookup_fmap, Hrow; simpl; rewrite Hnat; reflexivity|].
  split; [reflexivity|].
  intros d p Hin. by apply filtered_data_has_date in Hin.
Qed.

Lemma missing_date_excluded_witness :
  let sales_of_csv := fun _ : string =>
    Some [ Sale "2024-01-01" "Tee" 5 20 2 500%Q; Sale "soon" "Cap" 3 9 1 90%Q ] in
  let to_datetime_coerce := fun (_ : list string) (cell : string) =>
    if bool_decide (cell = "2024-01-01") then Some (to_datetime 19723) else None in
  exists data r,
    load_data sales_of_csv to_datetime_coerce data_file_path
              {[ data_file_path := "Date,Produits_vendus,Ventes,Visiteurs,Conversions,Revenus" ]}
      = Ok data
    /\ data !! 1%nat = Some r
    /\ r = Sale None "Cap" 3 9 1 90%Q
    /\ forall d p, r ∉ filtered_data data d p.
Proof.
  intros sales_of_csv to_datetime_coerce.
  destruct (missing_date_excluded sales_of_csv to_datetime_coerce
              {[ data_file_path := "Date,Produits_vendus,Ventes,Visiteurs,Conversions,Revenus" ]}
              data_file_path
              "Date,Produits_vendus,Ventes,Visiteurs,Conversions,Revenus"
              [ Sale "2024-01-01" "Tee" 5 20 2 500%Q; Sale "soon" "Cap" 3 9 1 90%Q ]
              1%nat (Sale "soon" "Cap" 3 9 1 90%Q))
    as (data & r & Hload & _ & Hi & Hr & Hout).
  - apply lookup_singleton_eq.
  - reflexivity.
  - reflexivity.
  - reflexivity.
  - exists data, r. auto.
Defined.

(** ** Loading the users *)


Lemma check_parent_directory_iff (file_path : string) (fs : filesystem) :
  check_parent_directory file_path fs = true
  <-> dirname file_path = "" \/ dirname file_path = "/"
      \/ exists file, is_Some (fs !! file)
                      /\ String.prefix (dirname file_path) file = true.
Proof.
  unfold check_parent_directory. cbv zeta.
  rewrite !orb_true_iff, !bool_decide_eq_true, existsb_exists. split.
  - intros [[Hcwd | Hroot] | ([file text] & Hin & Hprefix)]; [tauto | tauto |].
    right. right. exists file. split; [|exact Hprefix].
    apply list_elem_of_In, elem_of_map_to_list in Hin. eauto.
  - intros [Hcwd | [Hroot | (file & [text Hfile] & Hprefix)]]; [tauto | tauto |].
    right. exists (file, text). split; [|exact Hprefix].
    by apply list_elem_of_In, elem_of_map_to_list.
Qed.

Lemma isdir_empty (path : string) : isdir path ∅ = false.
Proof. unfold isdir. by rewrite map_to_list_empty. Qed.




(** A file that is there is read, and nothing is written. *)
Lemma load_users_present users_to_csv users_of_csv file_path fs text users :
  fs !! file_path = Some text ->
  users_of_csv text = Some users ->
  load_users users_to_csv users_of_csv file_path fs = (Ok users, fs).
Proof. intros Hfile Hcsv. unfold load_users, read_csv. by rewrite Hfile, Hcsv. Qed.

(** ** Adding a user *)

Lemma truthy_true_iff (s : string) : truthy s = true <-> s <> "".
Proof. destruct s; simpl; split; congruence. Qed.

Lemma truthy_false_iff (s : string) : truthy s = false <-> s = "".
Proof. destruct s; simpl; split; congruence. Qed.

Lemma add_user_button_rejects users_to_csv (u p : string) (s : state) :
  u = "" \/ p = "" ->
  add_user_button users_to_csv u p s
  = (st_error "Please enter a username and password.", s).
Proof.
  intros Hempty. unfold add_user_button.
  replace (negb (truthy u) || negb (truthy p)) with true; [reflexivity|].
  symmetry. apply orb_true_iff.
  destruct Hempty as [-> | ->]; [left | right]; reflexivity.
Qed.

Lemma add_user_button_accepts users_to_csv (u p : string) (s : state) :
  u <> "" -> p <> "" ->
  add_user_button users_to_csv u p s
  = (st_success "New user added successfully.",
     State (users_data s)
           (<[users_file_path :=
                users_to_csv (users_data s ++ [User u (hash_password p)])%list]> (files s))).
Proof.
  intros Hu%truthy_true_iff Hp%truthy_true_iff. unfold add_user_button.
  rewrite Hu, Hp. reflexivity.
Qed.

(** C8.  With an empty username or an empty password, the add-user
    handler reports an error and changes nothing: the table in memory and
    the files are as before.  With both fields filled in, whatever the
    table already holds (the username is not looked up in it), it
    reports success and writes the table with the row
    [(username, hash_password password)] appended. *)
Theorem add_user_button_spec (users_to_csv : list user -> string)
    (new_username new_password : string) (s : state) :
  (new_username = "" \/ new_password = "" ->
   add_user_button users_to_csv new_username new_password s
   = (st_error "Please enter a username and password.", s))
  /\ (new_username <> "" -> new_password <> "" ->
      add_user_button users_to_csv new_username new_password s
      = (st_success "New user added successfully.",
         State (users_data s)
               (<[users_file_path :=
                    users_to_csv (users_data s
                                  ++ [User new_username (hash_password new_password)])%list]>
                  (files s)))).
Proof.
  split; [apply add_user_button_rejects | apply add_user_button_accepts].
Qed.

Lemma add_user_button_spec_witness :
  let s := State [User "admin" (hash_password "admin")] ∅ in
  add_user_button plain_csv "" "secret" s
  = (st_error "Please enter a username and password.", s)
  /\ add_user_button plain_csv "bob" "" s
     = (st_error "Please enter a username and password.", s)
  /\ add_user_button plain_csv "admin" "other" s
     = (st_success "New user added successfully.",
        State [User "admin" (hash_password "admin")]
              {[ users_file_path :=
                   plain_csv [User "admin" (hash_password "admin");
                              User "admin" (hash_password "other")] ]}).
Proof.
  intros s.
  split; [|split].
  - apply (proj1 (add_user_button_spec plain_csv "" "secret" s)). by left.
  - apply (proj1 (add_user_button_spec plain_csv "bob" "" s)). by right.
  - apply (proj2 (add_user_button_spec plain_csv "admin" "other" s)); discriminate.
Defined.

(** C10.  When both fields are filled in, the table the add-user
    handler writes is the old table followed by the one new row
    [(username, hash_password password)]: one row longer, with every old
    row unchanged at its old position. *)
Theorem add_user_appends (users_to_csv : list user -> string)
    (new_username new_password : string) (s : state) :
  new_username <> "" -> new_password <> "" ->
  let old := users_data s in
  let new := updated_users_data new_username new_password old in
  add_user_button users_to_csv new_username new_password s
  = (st_success "New user added successfully.",
     State old (<[users_file_path := users_to_csv new]> (files s)))
  /\ new = (old ++ [User new_username (hash_password new_password)])%list
  /\ length new = S (length old)
  /\ (forall i r, old !! i = Some r -> new !! i = Some r)
  /\ new !! length old = Some (User new_username (hash_password new_password))
  /\ (forall i, (length old < i)%nat -> new !! i = None).
Proof.
  intros Hu Hp. simpl.
  split; [by apply add_user_button_accepts|].
  unfold updated_users_data, concat_frames.
  split; [reflexivity|].
  split; [rewrite length_app; simpl; lia|].
  split; [intros i r Hi; by apply lookup_app_l_Some|].
  split; [by rewrite list_lookup_middle|].
  intros i Hi. apply lookup_ge_None. rewrite length_app. simpl. lia.
Qed.

Lemma add_user_appends_witness :
  let old := [User "admin" (hash_password "admin")] in
  let new := updated_users_data "bob" "secret" old in
  add_user_button plain_csv "bob" "secret" (State old ∅)
  = (st_success "New user added successfully.",
     State old {[ users_file_path := plain_csv new ]})
  /\ new = [User "admin" (hash_password "admin"); User "bob" (hash_password "secret")]
  /\ length new = 2%nat.
Proof.
  intros old new.
  destruct (add_user_appends plain_csv "bob" "secret" (State old ∅))
    as (Hrun & Hnew & Hlen & _); [discriminate | discriminate |].
  split; [exact Hrun|]. split; [exact Hnew | exact Hlen].
Defined.

(** ** Performance indicators *)

Lemma indicators_ok (df : list (sale Timestamp)) :
  indicators df
  = Ok (KPIs (sum_int64 (map Ventes df))
             (sum_int64 (map Visiteurs df))
             (if 0 <? sum_int64 (map Visiteurs df) then
                (inject_Z (sum_int64 (map Conversions df))
                 / inject_Z (sum_int64 (map Visiteurs df)) * 100)%Q
              else 0%Q)
             (sum_Q (map Revenus df))).
Proof.
  unfold indicators, true_divide.
  destruct (0 <? sum_int64 (map Visiteurs df)) eqn:Hpos; [|reflexivity].
  apply Z.ltb_lt in Hpos.
  destruct (sum_int64 (map Visiteurs df) =? 0) eqn:Hzero; [|reflexivity].
  apply Z.eqb_eq in Hzero. lia.
Qed.

(** C3.  On a frame with no rows the four indicators are 0: total
    sales, total visitors, conversion rate and total revenue.  The
    conversion rate is 0 through the [total_visitors > 0] test, which keeps
    the division from running with a zero divisor, on this frame and on
    every other. *)
Theorem indicators_empty :
  indicators [] = Ok (KPIs 0 0 0%Q 0%Q)
  /\ (forall df, indicators df <> Raise DivideByZero)
  /\ (forall df, sum_int64 (map Visiteurs df) = 0 ->
        exists k, indicators df = Ok k /\ conversion_rate k = 0%Q).
Proof.
  split; [reflexivity|]. split.
  - intros df. rewrite indicators_ok. discriminate.
  - intros df Hzero. rewrite indicators_ok, Hzero. eexists. split; reflexivity.
Qed.

(** The two KPI blocks on an empty filtered frame. *)
Lemma performance_indicators_All_empty :
  performance_indicators [] ["All"] = Ok (AllProducts (KPIs 0 0 0%Q 0%Q)).
Proof. reflexivity. Qed.

Lemma indicators_per_product_empty (products : list string) :
  indicators_per_product [] products
  = Ok (map (fun product => (product, KPIs 0 0 0%Q 0%Q)) products).
Proof.
  induction products as [|product rest IH]; [reflexivity|].
  simpl. rewrite IH. reflexivity.
Qed.

Example indicators_tee :
  indicators [Sale (Some (to_datetime 19723)) "Tee" 5 20 2 500%Q]
  = Ok (KPIs 5 20 ((2 / 20) * 100)%Q (0 + 500)%Q).
Proof. reflexivity. Qed.

(** * Further properties of the script *)

(** ** The shape of a digest *)

Lemma compress_length (h block : list Z) :
  length h = 8%nat -> length (SHA256.compress h block) = 8%nat.
Proof.
  intros Hh. unfold SHA256.compress.
  rewrite length_map, length_combine, Hh. reflexivity.
Qed.

Lemma digest_length (msg : list Z) : length (SHA256.digest msg) = 8%nat.
Proof.
  unfold SHA256.digest.
  generalize (SHA256.chunks 64 (length (SHA256.pad msg) / 64) (SHA256.pad msg)).
  assert (H8 : length SHA256.H0 = 8%nat) by reflexivity.
  revert H8. generalize SHA256.H0.
  intros h Hh blocks. revert h Hh.
  induction blocks as [|b blocks IH]; intros h Hh; simpl; [exact Hh|].
  apply IH, compress_length, Hh.
Qed.

Lemma hex_digit_alphabet (x : Z) :
  In (SHA256.hex_digit (Z.land x 15)) (list_ascii_of_string "0123456789abcdef").
Proof.
  unfold SHA256.hex_digit. apply nth_In.
  change 15 with (Z.ones 4). rewrite Z.land_ones by lia.
  pose proof (Z.mod_pos_bound x (2 ^ 4) ltac:(lia)) as Hb.
  change (length (list_ascii_of_string "0123456789abcdef")) with 16%nat. lia.
Qed.

Lemma hex_word_shape (w : Z) :
  length (SHA256.hex_word w) = 8%nat
  /\ Forall (fun c => In c (list_ascii_of_string "0123456789abcdef")) (SHA256.hex_word w).
Proof.
  unfold SHA256.hex_word. split; [reflexivity|].
  apply Forall_forall. intros c Hc. apply list_elem_of_fmap in Hc as (i & -> & _).
  apply hex_digit_alphabet.
Qed.

Lemma hex_words_shape (ws : list Z) :
  length (concat (map SHA256.hex_word ws)) = (8 * length ws)%nat
  /\ Forall (fun c => In c (list_ascii_of_string "0123456789abcdef"))
            (concat (map SHA256.hex_word ws)).
Proof.
  induction ws as [|w ws [IHl IHa]]; [split; [reflexivity | constructor]|].
  destruct (hex_word_shape w) as [Hl Ha].
  change (concat (map SHA256.hex_word (w :: ws)))
    with (SHA256.hex_word w ++ concat (map SHA256.hex_word ws))%list.
  split.
  - rewrite length_app, Hl, IHl. simpl length. lia.
  - apply Forall_app. split; assumption.
Qed.

Lemma length_string_of_list_ascii (l : list ascii) :
  String.length (string_of_list_ascii l) = length l.
Proof. induction l as [|c l IH]; simpl; [reflexivity | by rewrite IH]. Qed.

(** X1.  Whatever the password, its digest is a string of exactly 64
    characters, each one of [0123456789abcdef]; so it is never empty. *)
Theorem hash_password_shape (pwd : string) :
  String.length (hash_password pwd) = 64%nat
  /\ Forall (fun c => In c (list_ascii_of_string "0123456789abcdef"))
            (list_ascii_of_string (hash_password pwd))
  /\ truthy (hash_password pwd) = true.
Proof.
  unfold hash_password, SHA256.hexdigest.
  destruct (hex_words_shape (SHA256.digest (encode pwd))) as [Hl Ha].
  rewrite digest_length in Hl.
  assert (H64 : String.length
                  (string_of_list_ascii
                     (concat (map SHA256.hex_word (SHA256.digest (encode pwd)))))
                = 64%nat).
  { rewrite length_string_of_list_ascii. exact Hl. }
  split; [exact H64|]. split.
  - rewrite list_ascii_of_string_of_list_ascii. exact Ha.
  - destruct (string_of_list_ascii _); [discriminate H64 | reflexivity].
Qed.

(** ** More on the filter *)

Lemma mask_impl_sublist {A} (mask mask' : A -> bool) (l : list A) :
  (forall x, mask x = true -> mask' x = true) ->
  sublist (List.filter mask l) (List.filter mask' l).
Proof.
  intros Himpl. induction l as [|x l IH]; simpl; [constructor|].
  destruct (mask x) eqn:Hx.
  - rewrite (Himpl x Hx). by apply sublist_skip.
  - destruct (mask' x); [by apply sublist_cons | exact IH].
Qed.

Lemma mask_nil_iff {A} (mask : A -> bool) (l : list A) :
  List.filter mask l = [] <-> forall x, x ∈ l -> mask x = false.
Proof.
  induction l as [|x l IH]; simpl.
  - split; [intros _ y Hy; by apply not_elem_of_nil in Hy | reflexivity].
  - destruct (mask x) eqn:Hx; split.
    + discriminate.
    + intros Hall. specialize (Hall x ltac:(left)). congruence.
    + intros Hnil y Hy. apply elem_of_cons in Hy as [-> | Hy]; [exact Hx|].
      by apply IH.
    + intros Hall. apply IH. intros y Hy. apply Hall. by right.
Qed.

Lemma row_mask_spec d p (r : sale Timestamp) :
  row_mask d p r = true
  <-> within_date_range d r /\ ("All" ∈ p \/ Produits_vendus r ∈ p).
Proof.
  unfold row_mask, isin.
  destruct (bool_decide ("All" ∈ p)) eqn:HAll.
  - apply bool_decide_eq_true in HAll. rewrite date_mask_within. tauto.
  - apply bool_decide_eq_false in HAll.
    rewrite andb_true_iff, date_mask_within, bool_decide_eq_true. tauto.
Qed.

(** X2.  Without "All" in the selection, the filtered frame holds
    exactly the rows whose product is one of the selected ones and whose
    timestamp lies between midnight of the first day of the range and
    midnight of the last, both included.  In days: the rows of a day from
    the first one on and before the last one, and of the last day the
    rows stamped at midnight only; a row dated by a day alone is kept
    exactly when its day is in the range, ends included, and its product
    selected.  With nothing selected the frame is empty. *)
Theorem filtered_data_selection (R : list (sale Timestamp)) (d : date * date)
    (p : list string) :
  "All" ∉ p ->
  (forall r : sale Timestamp,
     r ∈ filtered_data R d p
     <-> r ∈ R
         /\ (exists t, Date r = Some t
                       /\ fst d * 86400000000000 <= t <= snd d * 86400000000000)
         /\ Produits_vendus r ∈ p)
  /\ (forall (r : sale Timestamp) t, Date r = Some t ->
        (r ∈ filtered_data R d p
         <-> r ∈ R /\ fst d <= timestamp_date t
             /\ (timestamp_date t < snd d \/ t = snd d * 86400000000000)
             /\ Produits_vendus r ∈ p))
  /\ (forall (r : sale Timestamp) day, Date r = Some (day * 86400000000000) ->
        (r ∈ filtered_data R d p
         <-> r ∈ R /\ fst d <= day <= snd d /\ Produits_vendus r ∈ p))
  /\ filtered_data R d p
     = filter (fun r => within_date_range d r /\ Produits_vendus r ∈ p) R
  /\ (p = [] -> filtered_data R d p = []).
Proof.
  intros HAll.
  assert (Hmask : forall r, row_mask d p r = true
                            <-> within_date_range d r /\ Produits_vendus r ∈ p).
  { intros r. rewrite row_mask_spec. tauto. }
  assert (Hshown : forall r : sale Timestamp,
            r ∈ filtered_data R d p
            <-> r ∈ R
                /\ (exists t, Date r = Some t
                              /\ fst d * 86400000000000 <= t <= snd d * 86400000000000)
                /\ Produits_vendus r ∈ p).
  { intros r.
    rewrite filtered_data_mask, mask_elem_of, Hmask, within_date_range_stamp.
    reflexivity. }
  split; [exact Hshown|]. split; [|split; [|split]].
  - intros r t Ht. rewrite Hshown. split.
    + intros (Hr & (t' & Ht' & Hbetween) & Hp).
      assert (t' = t) by congruence. subst t'.
      apply between_midnights_days in Hbetween as [Hlo Hhi]. auto.
    + intros (Hr & Hlo & Hhi & Hp). split; [exact Hr|]. split; [|exact Hp].
      exists t. split; [exact Ht|]. apply between_midnights_days. auto.
  - intros r day Hday. rewrite Hshown. split.
    + intros (Hr & (t' & Ht' & Hbetween) & Hp).
      assert (t' = day * 86400000000000) by congruence.
      split; [exact Hr|]. split; [lia | exact Hp].
    + intros (Hr & Hdays & Hp). split; [exact Hr|]. split; [|exact Hp].
      eexists. split; [exact Hday | lia].
  - rewrite filtered_data_mask. by apply mask_filter.
  - intros ->. rewrite filtered_data_mask. apply mask_nil_iff.
    intros r _. apply not_true_iff_false.
    rewrite Hmask. intros [_ Hin]. by apply not_elem_of_nil in Hin.
Qed.

Lemma filtered_data_selection_witness :
  let R := [ Sale (Some (19723 * 86400000000000)) "Tee" 5 20 2 500%Q;
             Sale (Some (19724 * 86400000000000)) "Cap" 3 9 1 90%Q;
             Sale (Some (19730 * 86400000000000 + 36000000000000)) "Cap" 2 6 1 60%Q;
             Sale (Some (19900 * 86400000000000)) "Cap" 1 4 1 30%Q ] in
  filtered_data R (19723, 19730) ["Cap"]
  = [ Sale (Some (19724 * 86400000000000)) "Cap" 3 9 1 90%Q ]
  /\ filtered_data R (19723, 19730) [] = [].
Proof.
  intros R. split.
  - assert (Hno : "All" ∉ ["Cap"]).
    { intros H. apply list_elem_of_singleton in H. discriminate. }
    rewrite (proj1 (proj2 (proj2 (proj2
               (filtered_data_selection R (19723, 19730) ["Cap"] Hno))))).
    vm_compute. reflexivity.
  - apply (filtered_data_selection R (19723, 19730) []); [|reflexivity].
    apply not_elem_of_nil.
Defined.

(** X3.  Selecting "All" shows the most: for one date range, the frame
    of any selection is a subsequence of the frame of "All". *)
Theorem filtered_data_All_widest (R : list (sale Timestamp)) (d : date * date)
    (p : list string) :
  sublist (filtered_data R d p) (filtered_data R d ["All"]).
Proof.
  rewrite !filtered_data_mask. apply mask_impl_sublist. intros r.
  rewrite !row_mask_spec. intros [Hd _]. split; [exact Hd|]. left. left.
Qed.

(** X4.  A wider date range shows more: if the range [d] lies inside
    the range [d'], the frame for [d] is a subsequence of the frame for
    [d'], for the same selection. *)
Theorem filtered_data_range_mono (R : list (sale Timestamp)) (d d' : date * date)
    (p : list string) :
  fst d' <= fst d -> snd d <= snd d' ->
  sublist (filtered_data R d p) (filtered_data R d' p).
Proof.
  intros Hlo Hhi. rewrite !filtered_data_mask. apply mask_impl_sublist.
  intros r. rewrite !row_mask_spec. intros [Hd Hp]. split; [|exact Hp].
  unfold within_date_range, to_datetime in *. destruct (Date r); [lia | exact Hd].
Qed.

Lemma filtered_data_range_mono_witness :
  let R := [ Sale (Some (to_datetime 19723)) "Tee" 5 20 2 500%Q;
             Sale (Some (to_datetime 19800)) "Cap" 3 9 1 90%Q ] in
  sublist (filtered_data R (19723, 19730) ["All"])
          (filtered_data R (19700, 19900) ["All"]).
Proof.
  intros R. apply (filtered_data_range_mono R (19723, 19730) (19700, 19900));
    simpl; lia.
Defined.

(** X5.  A date range whose last day is before its first day shows
    nothing, whatever the selection. *)
Theorem filtered_data_empty_range (R : list (sale Timestamp)) (d : date * date)
    (p : list string) :
  snd d < fst d -> filtered_data R d p = [].
Proof.
  intros Hswap. rewrite filtered_data_mask. apply mask_nil_iff.
  intros r _. apply not_true_iff_false. rewrite row_mask_spec. intros [Hd _].
  unfold within_date_range, to_datetime in Hd. destruct (Date r); [lia | exact Hd].
Qed.

Lemma filtered_data_empty_range_witness :
  filtered_data [ Sale (Some (to_datetime 19723)) "Tee" 5 20 2 500%Q ]
                (19730, 19723) ["All"] = [].
Proof. apply filtered_data_empty_range. simpl. lia. Defined.

(** X6.  The filter decides row by row: the frame of two tables put
    end to end is the two frames put end to end, so rows appended to the
    data show up after the rows already shown, and only if they pass. *)
Theorem filtered_data_app (R1 R2 : list (sale Timestamp)) (d : date * date)
    (p : list string) :
  filtered_data (R1 ++ R2) d p = (filtered_data R1 d p ++ filtered_data R2 d p)%list
  /\ (forall r, row_mask d p r = true ->
        filtered_data (R1 ++ [r]) d p = (filtered_data R1 d p ++ [r])%list)
  /\ (forall r, row_mask d p r = false ->
        filtered_data (R1 ++ [r]) d p = filtered_data R1 d p).
Proof.
  rewrite !filtered_data_mask. split; [apply List.filter_app|].
  split; intros r Hr; rewrite !filtered_data_mask, List.filter_app; simpl;
    rewrite Hr; [reflexivity | apply app_nil_r].
Qed.

(** ** More on editing a user *)

(** X7.  With an empty new username or an empty new password the
    edit handler reports an error and changes nothing, in memory or on
    disk. *)
Theorem edit_user_button_rejects (users_to_csv : list user -> string)
    (edit_username new_username_edit new_password_edit : string) (s : state) :
  new_username_edit = "" \/ new_password_edit = "" ->
  edit_user_button users_to_csv edit_username new_username_edit new_password_edit s
  = (st_error "Please enter a new username and password.", s).
Proof.
  intros Hempty. unfold edit_user_button.
  replace (negb (truthy new_username_edit) || negb (truthy new_password_edit))
    with true; [reflexivity|].
  symmetry. apply orb_true_iff.
  destruct Hempty as [-> | ->]; [left | right]; reflexivity.
Qed.

Lemma edit_user_button_rejects_witness :
  let s := State [User "admin" (hash_password "admin")] ∅ in
  edit_user_button plain_csv "admin" "" "x" s
  = (st_error "Please enter a new username and password.", s)
  /\ edit_user_button plain_csv "admin" "root" "" s
     = (st_error "Please enter a new username and password.", s).
Proof.
  intros s. split.
  - apply edit_user_button_rejects. by left.
  - apply edit_user_button_rejects. by right.
Defined.

Lemma edited_row_cases old new pw (r : user) :
  edited_row old new pw r
  = if decide (username r = old \/ username r = new)
    then User new (hash_password pw) else r.
Proof.
  unfold edited_row.
  destruct (decide (username r = old)) as [Ho|Ho].
  - rewrite (bool_decide_eq_true_2 _ Ho). simpl.
    rewrite bool_decide_eq_true_2 by reflexivity.
    rewrite decide_True by (by left). reflexivity.
  - rewrite (bool_decide_eq_false_2 _ Ho).
    destruct (decide (username r = new)) as [Hn|Hn].
    + rewrite (bool_decide_eq_true_2 _ Hn), decide_True by (by right).
      by rewrite Hn.
    + rewrite (bool_decide_eq_false_2 _ Hn), decide_False by tauto. reflexivity.
Qed.

(** X8.  What an accepted edit does to the table, row by row: a row
    named by the old or by the new username becomes
    [(new username, hash_password new password)]; every other row is left
    as it is.  No row is added or removed, and when the username is kept
    the column of usernames does not change. *)
Theorem edited_users_data_rows (old new pw : string) (T : list user) :
  length (edited_users_data old new pw T) = length T
  /\ (forall i r, T !! i = Some r ->
        edited_users_data old new pw T !! i
        = Some (if decide (username r = old \/ username r = new)
                then User new (hash_password pw) else r))
  /\ (old = new ->
      map username (edited_users_data old new pw T) = map username T).
Proof.
  rewrite edited_users_data_map. split; [apply length_map|]. split.
  - intros i r Hi. rewrite list_lookup_fmap, Hi. simpl.
    by rewrite edited_row_cases.
  - intros <-. rewrite map_map. apply map_ext. intros r.
    rewrite edited_row_cases. destruct (decide _) as [[H|H]|_]; simpl; congruence.
Qed.

Example edit_merges_accounts :
  edited_users_data "bob" "admin" "x" [User "admin" "h1"; User "bob" "h2"; User "eve" "h3"]
  = [User "admin" (hash_password "x"); User "admin" (hash_password "x"); User "eve" "h3"].
Proof. reflexivity. Qed.

(** X9.  Logins after an accepted edit.  Under the new username only
    the new password works, and it works as soon as the table had a row
    under the old or the new username; so an account that already had the
    new username loses its own password.  Under the old username, when
    the username was changed, nothing works any more. *)
Theorem edit_logins (old new pw : string) (T : list user) :
  (forall q, authenticate new q (edited_users_data old new pw T) = true ->
             hash_password q = hash_password pw)
  /\ ((exists r, r ∈ T /\ (username r = old \/ username r = new)) ->
      authenticate new pw (edited_users_data old new pw T) = true)
  /\ (old <> new ->
      forall q, authenticate old q (edited_users_data old new pw T) = false).
Proof.
  rewrite edited_users_data_map. split; [|split].
  - intros q Hq. apply authenticate_true_iff in Hq as (r' & Hin & Hname & Hpass).
    apply list_elem_of_fmap in Hin as (r & -> & _).
    rewrite edited_row_cases in Hname, Hpass.
    destruct (decide _) as [_|Hno]; simpl in *; [congruence|]. tauto.
  - intros (r & Hin & Hr). apply authenticate_true_iff.
    exists (User new (hash_password pw)). split; [|split; reflexivity].
    replace (User new (hash_password pw)) with (edited_row old new pw r).
    + by apply list_elem_of_fmap_2.
    + rewrite edited_row_cases. by rewrite decide_True.
  - intros Hne q. apply authenticate_false_iff. intros r' Hin Hname.
    apply list_elem_of_fmap in Hin as (r & -> & _).
    by apply edited_row_username in Hname.
Qed.

(** X10.  An accepted edit leaves every other login as it was: for a
    username that is neither the old nor the new one, [authenticate]
    answers the same before and after. *)
Theorem edit_keeps_other_logins (old new pw u q : string) (T : list user) :
  u <> old -> u <> new ->
  authenticate u q (edited_users_data old new pw T) = authenticate u q T.
Proof.
  intros Ho Hn. rewrite edited_users_data_map.
  apply eq_true_iff_eq. rewrite !authenticate_true_iff. split.
  - intros (r' & Hin & Hname & Hpass).
    apply list_elem_of_fmap in Hin as (r & -> & Hin).
    rewrite edited_row_cases in Hname, Hpass.
    destruct (decide _) as [_|_]; simpl in *; [congruence|]. eauto.
  - intros (r & Hin & Hname & Hpass). exists r. split; [|auto].
    replace r with (edited_row old new pw r) at 1; [by apply list_elem_of_fmap_2|].
    rewrite edited_row_cases. apply decide_False. intros [H|H]; congruence.
Qed.

Lemma edit_keeps_other_logins_witness :
  authenticate "eve" "pw"
    (edited_users_data "bob" "admin" "x"
       [User "admin" "h1"; User "bob" "h2"; User "eve" (hash_password "pw")])
  = authenticate "eve" "pw"
      [User "admin" "h1"; User "bob" "h2"; User "eve" (hash_password "pw")].
Proof. apply edit_keeps_other_logins; discriminate. Defined.

(** ** More on adding a user *)

Lemma authenticate_app (u q : string) (T1 T2 : list user) :
  authenticate u q (T1 ++ T2) = authenticate u q T1 || authenticate u q T2.
Proof.
  apply eq_true_iff_eq.
  rewrite orb_true_iff, !authenticate_true_iff. split.
  - intros (r & Hin & Hr). apply elem_of_app in Hin as [Hin | Hin]; eauto.
  - intros [(r & Hin & Hr) | (r & Hin & Hr)]; exists r;
      (split; [apply elem_of_app; auto | exact Hr]).
Qed.

(** X11.  Logins on the table the add-user handler writes: the new
    username logs in with the new password, every login that worked
    before still works, and nothing else does.  In particular, adding a
    username that is already there gives it a second password next to the
    first. *)
Theorem add_user_logins (new_username new_password : string) (T : list user) :
  let T' := updated_users_data new_username new_password T in
  authenticate new_username new_password T' = true
  /\ (forall u q, authenticate u q T = true -> authenticate u q T' = true)
  /\ (forall u q, authenticate u q T' = true ->
        authenticate u q T = true
        \/ (u = new_username /\ hash_password q = hash_password new_password)).
Proof.
  simpl. unfold updated_users_data, concat_frames.
  assert (Hnew : forall u q,
            authenticate u q [User new_username (hash_password new_password)] = true
            <-> u = new_username /\ hash_password q = hash_password new_password).
  { intros u q. rewrite authenticate_true_iff. split.
    - intros (r & Hin & Hu & Hq). apply list_elem_of_singleton in Hin. subst r.
      simpl in *. auto.
    - intros [-> Hq]. eexists. split; [apply list_elem_of_singleton; reflexivity|].
      simpl. auto. }
  split; [|split].
  - rewrite authenticate_app. apply orb_true_iff. right. by apply Hnew.
  - intros u q Hold. rewrite authenticate_app, Hold. reflexivity.
  - intros u q Hq. rewrite authenticate_app in Hq.
    apply orb_true_iff in Hq as [Hq | Hq]; [by left | right; by apply Hnew].
Qed.

Example add_user_second_password :
  let T' := updated_users_data "admin" "other" [User "admin" (hash_password "admin")] in
  authenticate "admin" "admin" T' = true /\ authenticate "admin" "other" T' = true.
Proof. vm_compute. split; reflexivity. Qed.

(** ** More on loading *)

Lemma load_users_cases (users_to_csv : list user -> string)
    (users_of_csv : string -> option (list user))
    (file_path : string) (fs : filesystem) :
  let loaded := load_users users_to_csv users_of_csv file_path fs in
  (exists text, fs !! file_path = Some text
                /\ loaded = (match users_of_csv text with
                             | Some users => Ok users
                             | None => Raise ParserError
                             end, fs))
  \/ (fs !! file_path = None /\ check_parent_directory file_path fs = true
      /\ loaded = (Ok [User "admin" (hash_password "admin")],
                   <[file_path := users_to_csv [User "admin" (hash_password "admin")]]> fs))
  \/ (fs !! file_path = None /\ check_parent_directory file_path fs = false
      /\ loaded = (Raise OSError, fs)).
Proof.
  cbv zeta. unfold load_users, read_csv, to_csv.
  destruct (fs !! file_path) as [text|] eqn:Hfile.
  - left. exists text. split; [reflexivity|]. by destruct (users_of_csv text).
  - right. destruct (check_parent_directory file_path fs); [left | right]; auto.
Qed.

(** X12.  [load_users] and the files, for a path in normal form that is
    not a directory.  It never ends in
    [FileNotFoundError]; a file that is there is never overwritten, even
    when it cannot be read; when a table is returned the file is there
    afterwards; when the call fails nothing is written, and it fails with
    [OSError] exactly when the file is missing and so is its directory;
    no other path is touched; and a second call writes nothing more. *)
Theorem load_users_files (users_to_csv : list user -> string)
    (users_of_csv : string -> option (list user))
    (file_path : string) (fs : filesystem) :
  normal_path file_path = true ->
  isdir file_path fs = false ->
  let load := load_users users_to_csv users_of_csv file_path in
  fst (load fs) <> Raise FileNotFoundError
  /\ (is_Some (fs !! file_path) -> snd (load fs) = fs)
  /\ (forall users, fst (load fs) = Ok users -> is_Some (snd (load fs) !! file_path))
  /\ (forall e, fst (load fs) = Raise e -> snd (load fs) = fs)
  /\ (fst (load fs) = Raise OSError
      <-> fs !! file_path = None /\ check_parent_directory file_path fs = false)
  /\ (forall other, other <> file_path -> snd (load fs) !! other = fs !! other)
  /\ snd (load (snd (load fs))) = snd (load fs).
Proof.
  intros _ _. cbv zeta.
  assert (Hkeep : forall fs' : filesystem, is_Some (fs' !! file_path) ->
            snd (load_users users_to_csv users_of_csv file_path fs') = fs').
  { intros fs' [text Htext].
    destruct (load_users_cases users_to_csv users_of_csv file_path fs')
      as [(text' & _ & ->) | [(Hnone & _) | (Hnone & _)]];
      [reflexivity | congruence | congruence]. }
  destruct (load_users_cases users_to_csv users_of_csv file_path fs)
    as [(text & Hfile & Hrun) | [(Hnone & Hdir & Hrun) | (Hnone & Hdir & Hrun)]];
    rewrite Hrun; cbn [fst snd]; split_and!.
  - destruct (users_of_csv text); discriminate.
  - reflexivity.
  - intros users _. rewrite Hfile. eauto.
  - reflexivity.
  - split; [destruct (users_of_csv text); discriminate | intros [H _]; congruence].
  - reflexivity.
  - apply Hkeep. rewrite Hfile. eauto.
  - discriminate.
  - intros [text Htext]. congruence.
  - intros users _. rewrite lookup_insert_eq. eauto.
  - discriminate.
  - split; [discriminate | intros [_ H]; congruence].
  - intros other Hother. by rewrite lookup_insert_ne.
  - apply Hkeep. rewrite lookup_insert_eq. eauto.
  - discriminate.
  - reflexivity.
  - discriminate.
  - reflexivity.
  - split; auto.
  - reflexivity.
  - by rewrite Hrun.
Qed.

Lemma load_users_files_witness :
  fst (load_users plain_csv (fun _ => None) "nodir/users.csv" ∅)
  <> Raise FileNotFoundError
  /\ snd (load_users plain_csv (fun _ => None) "nodir/users.csv" ∅) = ∅
  /\ is_Some (snd (load_users plain_csv (fun _ => None) users_file_path ∅)
              !! users_file_path).
Proof.
  destruct (load_users_files plain_csv (fun _ => None) "nodir/users.csv" ∅
              eq_refl (isdir_empty _)) as (Hnot & _ & _ & Hfails & _).
  destruct (load_users_files plain_csv (fun _ => None) users_file_path ∅
              eq_refl (isdir_empty _)) as (_ & _ & Hthere & _).
  split; [exact Hnot|]. split; [exact (Hfails OSError eq_refl)|].
  exact (Hthere _ eq_refl).
Defined.

(** X13.  First start.  When there is no users file at a path in normal
    form that is not a directory, and its directory
    exists (as it does for the path of the script), the table that
    [load_users] returns lets "admin" log in with the password "admin",
    as an administrator, and lets nobody else in: any login that succeeds
    is for "admin" with a password whose digest is that of "admin". *)
Theorem load_users_first_start (users_to_csv : list user -> string)
    (users_of_csv : string -> option (list user))
    (file_path : string) (fs : filesystem) :
  normal_path file_path = true ->
  isdir file_path fs = false ->
  fs !! file_path = None ->
  check_parent_directory file_path fs = true ->
  exists users,
    fst (load_users users_to_csv users_of_csv file_path fs) = Ok users
    /\ authenticate "admin" "admin" users = true
    /\ is_admin "admin" = true
    /\ forall u q, authenticate u q users = true ->
         u = "admin" /\ hash_password q = hash_password "admin".
Proof.
  intros _ _ Hnone Hdir. eexists. split.
  { unfold load_users, read_csv. rewrite Hnone, Hdir. reflexivity. }
  split; [apply authenticate_admin_admin|]. split; [reflexivity|].
  intros u q Hq. apply authenticate_true_iff in Hq as (r & Hin & Hu & Hp).
  apply list_elem_of_singleton in Hin. subst r. simpl in *. auto.
Qed.

Lemma load_users_first_start_witness :
  exists users,
    fst (load_users plain_csv (fun _ => None) users_file_path ∅) = Ok users
    /\ authenticate "admin" "admin" users = true.
Proof.
  destruct (load_users_first_start plain_csv (fun _ => None) users_file_path ∅)
    as (users & Hload & Hlogin & _);
    [reflexivity | apply isdir_empty | apply lookup_empty | reflexivity |].
  exists users. split; assumption.
Defined.

(** X14.  What [load_data] returns.  It succeeds exactly when the file
    is there and can be read, and then it returns the rows of the file,
    all of them and in their order, with the date cell parsed and the
    other cells as read.  A missing file is a [FileNotFoundError] that
    nothing catches (no default table is made), an unreadable one a
    [ParserError]. *)
Theorem load_data_outcomes
    (sales_of_csv : string -> option (list (sale string)))
    (to_datetime_coerce : list string -> string -> Timestamp)
    (file_path : string) (fs : filesystem) :
  let load := load_data sales_of_csv to_datetime_coerce file_path fs in
  (fs !! file_path = None -> load = Raise FileNotFoundError)
  /\ (forall text, fs !! file_path = Some text -> sales_of_csv text = None ->
        load = Raise ParserError)
  /\ (forall text raw, fs !! file_path = Some text -> sales_of_csv text = Some raw ->
        exists data,
          load = Ok data
          /\ length data = length raw
          /\ map Date data = map (to_datetime_coerce (map Date raw)) (map Date raw)
          /\ map Produits_vendus data = map Produits_vendus raw
          /\ map Ventes data = map Ventes raw
          /\ map Visiteurs data = map Visiteurs raw
          /\ map Conversions data = map Conversions raw
          /\ map Revenus data = map Revenus raw).
Proof.
  simpl. unfold load_data, read_csv. split; [|split].
  - intros ->. reflexivity.
  - intros text -> ->. reflexivity.
  - intros text raw -> ->. simpl. eexists. split; [reflexivity|].
    rewrite length_map, !map_map. simpl. repeat split; reflexivity.
Qed.

(** ** More on the indicators *)

Lemma wrap_int64_small (z : Z) :
  -9223372036854775808 <= z < 9223372036854775808 -> wrap_int64 z = z.
Proof. intros Hz. unfold wrap_int64. rewrite Z.mod_small; lia. Qed.

Lemma wrap_int64_add (a x : Z) :
  wrap_int64 (wrap_int64 a + x) = wrap_int64 (a + x).
Proof.
  unfold wrap_int64. f_equal.
  replace ((a + 9223372036854775808) mod 18446744073709551616
           - 9223372036854775808 + x + 9223372036854775808)
    with ((a + 9223372036854775808) mod 18446744073709551616 + x) by lia.
  rewrite Zplus_mod_idemp_l. f_equal. lia.
Qed.

Lemma sum_int64_column_sum (col : list Z) :
  sum_int64 col = wrap_int64 (column_sum col).
Proof.
  unfold sum_int64.
  assert (Hgen : forall a,
            fold_left (fun acc x => wrap_int64 (acc + x)) col (wrap_int64 a)
            = wrap_int64 (a + column_sum col)).
  { induction col as [|x col IH]; intros a; simpl.
    - by rewrite Z.add_0_r.
    - rewrite wrap_int64_add, IH. f_equal. lia. }
  exact (Hgen 0).
Qed.

Lemma indicators_kpis_of (df : list (sale Timestamp)) :
  indicators df = Ok (kpis_of df).
Proof.
  unfold indicators, kpis_of, true_divide.
  destruct (0 <? sum_int64 (map Visiteurs df)) eqn:Hpos; [|reflexivity].
  apply Z.ltb_lt in Hpos.
  destruct (sum_int64 (map Visiteurs df) =? 0) eqn:Hzero; [|reflexivity].
  apply Z.eqb_eq in Hzero. lia.
Qed.

(** X15.  As long as the totals of sales and of visitors fit in 64
    bits, the two integer indicators are the plain sums of their
    columns, and the conversion rate is 0 whenever the visitors total is
    not positive. *)
Theorem indicators_integer_totals (df : list (sale Timestamp)) :
  let fits z := -9223372036854775808 <= z < 9223372036854775808 in
  let sales := column_sum (map Ventes df) in
  let visitors := column_sum (map Visiteurs df) in
  fits sales -> fits visitors ->
  exists k, indicators df = Ok k
            /\ total_sales k = sales
            /\ total_visitors k = visitors
            /\ (visitors <= 0 -> conversion_rate k = 0%Q).
Proof.
  cbv zeta. intros Hs Hv. exists (kpis_of df).
  split; [apply indicators_kpis_of|]. unfold kpis_of. cbn [total_sales total_visitors
                                                            conversion_rate].
  rewrite !sum_int64_column_sum, !(wrap_int64_small _ Hs), !(wrap_int64_small _ Hv).
  split; [reflexivity|]. split; [reflexivity|].
  intros Hnone. destruct (0 <? column_sum (map Visiteurs df)) eqn:Hpos; [|reflexivity].
  apply Z.ltb_lt in Hpos. lia.
Qed.

Lemma indicators_integer_totals_witness :
  exists k,
    indicators [ Sale (Some (19723 * 86400000000000)) "Tee" 5 20 2 500%Q;
                 Sale (Some (19724 * 86400000000000)) "Cap" 3 20 6 90%Q ] = Ok k
    /\ total_sales k = 8 /\ total_visitors k = 40.
Proof.
  destruct (indicators_integer_totals
              [ Sale (Some (19723 * 86400000000000)) "Tee" 5 20 2 500%Q;
                Sale (Some (19724 * 86400000000000)) "Cap" 3 20 6 90%Q ])
    as (k & Hk & Hsales & Hvisitors & _); [simpl; lia | simpl; lia |].
  exists k. auto.
Defined.

Lemma column_sum_le (df : list (sale Timestamp)) :
  (forall r, r ∈ df -> 0 <= Conversions r <= Visiteurs r) ->
  0 <= column_sum (map Conversions df) <= column_sum (map Visiteurs df).
Proof.
  induction df as [|r df IH]; intros Hrows; simpl; [lia|].
  pose proof (Hrows r ltac:(left)).
  assert (0 <= column_sum (map Conversions df) <= column_sum (map Visiteurs df)).
  { apply IH. intros r' Hr'. apply Hrows. by right. }
  lia.
Qed.

(** X16.  When no row has more conversions than visitors (nor a
    negative number of conversions) and the visitors total fits in 64
    bits, the conversion rate is between 0 and 100. *)
Theorem conversion_rate_bounds (df : list (sale Timestamp)) :
  (forall r, r ∈ df -> 0 <= Conversions r <= Visiteurs r) ->
  column_sum (map Visiteurs df) < 9223372036854775808 ->
  exists k, indicators df = Ok k
            /\ (0 <= conversion_rate k)%Q /\ (conversion_rate k <= 100)%Q.
Proof.
  intros Hrows Hfit. pose proof (column_sum_le df Hrows) as Hle.
  exists (kpis_of df). split; [apply indicators_kpis_of|].
  unfold kpis_of. simpl.
  rewrite !sum_int64_column_sum, !wrap_int64_small by lia.
  destruct (0 <? column_sum (map Visiteurs df)) eqn:Hpos;
    [|split; [apply Qle_refl | discriminate]].
  apply Z.ltb_lt in Hpos.
  destruct (column_sum (map Visiteurs df)) as [|v|v]; try lia.
  generalize dependent (column_sum (map Conversions df)). intros c Hc.
  unfold Qle, Qmult, Qdiv, Qinv, inject_Z. simpl. split; nia.
Qed.

Lemma conversion_rate_bounds_witness :
  exists k,
    indicators [ Sale (Some (to_datetime 19723)) "Tee" 5 20 2 500%Q ] = Ok k
    /\ (0 <= conversion_rate k)%Q /\ (conversion_rate k <= 100)%Q.
Proof.
  apply conversion_rate_bounds.
  - intros r Hr. apply list_elem_of_singleton in Hr. subst r. simpl. lia.
  - simpl. lia.
Defined.

Lemma mask_mask {A} (f g : A -> bool) (l : list A) :
  List.filter f (List.filter g l) = List.filter (fun x => g x && f x) l.
Proof.
  induction l as [|x l IH]; simpl; [reflexivity|].
  destruct (g x); simpl; [destruct (f x)|]; by rewrite IH.
Qed.

Lemma indicators_per_product_kpis_of (df : list (sale Timestamp))
    (products : list string) :
  indicators_per_product df products
  = Ok (map (fun q => (q, kpis_of (List.filter
                                     (fun r => bool_decide (Produits_vendus r = q)) df)))
            products).
Proof.
  induction products as [|q rest IH]; [reflexivity|].
  simpl. rewrite indicators_kpis_of, IH. reflexivity.
Qed.

Lemma indicators_per_product_ext (df df' : list (sale Timestamp))
    (products : list string) :
  (forall q, q ∈ products ->
     List.filter (fun r => bool_decide (Produits_vendus r = q)) df
     = List.filter (fun r => bool_decide (Produits_vendus r = q)) df') ->
  indicators_per_product df products = indicators_per_product df' products.
Proof.
  induction products as [|q rest IH]; intros Hsame; [reflexivity|].
  cbn [indicators_per_product]. rewrite (Hsame q) by left.
  rewrite IH; [reflexivity|]. intros q' Hq'. apply Hsame. by right.
Qed.

Lemma indicators_per_product_names (df : list (sale Timestamp))
    (products : list string) (ks : list (string * KPISet)) :
  indicators_per_product df products = Ok ks -> map fst ks = products.
Proof.
  revert ks. induction products as [|q rest IH]; intros ks; cbn [indicators_per_product].
  - intros [= <-]. reflexivity.
  - destruct (indicators _) as [k|e]; [|discriminate]. cbn [bind].
    destruct (indicators_per_product df rest) as [ks'|e]; [|discriminate].
    cbn [bind]. intros [= <-]. cbn. by rewrite (IH ks').
Qed.

Lemma product_data_rows (R : list (sale Timestamp)) (d : date * date)
    (p : list string) (q : string) :
  "All" ∉ p -> q ∈ p ->
  List.filter (fun r => bool_decide (Produits_vendus r = q)) (filtered_data R d p)
  = List.filter (fun r => date_mask d r && bool_decide (Produits_vendus r = q)) R.
Proof.
  intros HAll Hq. unfold filtered_data.
  rewrite (bool_decide_eq_false_2 _ HAll), mask_mask.
  apply mask_ext. intros r _.
  destruct (date_mask d r); simpl; [|reflexivity].
  destruct (bool_decide (Produits_vendus r = q)) eqn:Hr;
    [|by rewrite andb_false_r].
  apply bool_decide_eq_true in Hr. subst q. rewrite andb_true_r.
  unfold isin. by apply bool_decide_eq_true_2.
Qed.

(** X17.  The filter block followed by the indicators block, for a
    date range with both ends chosen.  With nothing selected the view is
    the warning.  With "All" in the selection it is the one set of
    indicators of the rows that pass the date test, whatever else is
    selected.  Otherwise it is what the loop over the selected products
    gives on the rows that pass the date test alone: for each selected
    product, [product_data] is exactly the rows that pass the date test
    and have that product, and the sets come one per selected product, in
    the order of the selection. *)
Theorem dashboard_indicators (R : list (sale Timestamp)) (d : date * date)
    (p : list string) :
  let view := performance_indicators (filtered_data R d p) (selected_products_after p) in
  (p = [] ->
   view = Ok (NoProduct
                (st_warning "Please select at least one product to display indicators.")))
  /\ ("All" ∈ p ->
      view = (k <- indicators (List.filter (date_mask d) R) ;; Ok (AllProducts k)))
  /\ (p <> [] -> "All" ∉ p ->
      view = (ks <- indicators_per_product (List.filter (date_mask d) R) p ;;
              Ok (PerProduct ks))
      /\ (forall q, q ∈ p ->
            List.filter (fun r => bool_decide (Produits_vendus r = q))
                        (filtered_data R d p)
            = List.filter (fun r => date_mask d r
                                    && bool_decide (Produits_vendus r = q)) R)
      /\ (forall ks, view = Ok (PerProduct ks) -> map fst ks = p)).
Proof.
  cbv zeta. split; [|split].
  - intros ->. reflexivity.
  - intros HAll. unfold selected_products_after, performance_indicators.
    rewrite (bool_decide_eq_true_2 _ HAll). simpl.
    rewrite filtered_data_All by exact HAll. reflexivity.
  - intros Hne HAll.
    assert (Hview : performance_indicators (filtered_data R d p)
                                           (selected_products_after p)
                    = (ks <- indicators_per_product (List.filter (date_mask d) R) p ;;
                       Ok (PerProduct ks))).
    { unfold selected_products_after.
      rewrite (bool_decide_eq_false_2 _ HAll). unfold performance_indicators.
      rewrite (bool_decide_eq_false_2 _ HAll).
      destruct p as [|q0 p0]; [congruence|]. cbn [length Nat.eqb].
      f_equal. apply indicators_per_product_ext. intros q Hq.
      rewrite (product_data_rows R d (q0 :: p0) q HAll Hq), mask_mask. reflexivity. }
    split; [exact Hview|]. split; [intros q Hq; by apply product_data_rows|].
    intros ks. rewrite Hview.
    destruct (indicators_per_product (List.filter (date_mask d) R) p) as [ks'|e] eqn:Hks;
      cbn [bind]; [|discriminate].
    intros [= <-]. by apply indicators_per_product_names in Hks.
Qed.

Lemma dashboard_indicators_witness :
  let R := [ Sale (Some (19723 * 86400000000000)) "Tee" 5 20 2 500%Q;
             Sale (Some (19724 * 86400000000000)) "Cap" 3 9 1 90%Q;
             Sale (Some (19900 * 86400000000000)) "Cap" 1 4 1 30%Q ] in
  List.filter (fun r => bool_decide (Produits_vendus r = "Cap"))
              (filtered_data R (19723, 19730) ["Cap"; "Hat"])
  = [ Sale (Some (19724 * 86400000000000)) "Cap" 3 9 1 90%Q ]
  /\ List.filter (fun r => bool_decide (Produits_vendus r = "Hat"))
                 (filtered_data R (19723, 19730) ["Cap"; "Hat"])
     = [].
Proof.
  intros R.
  assert (Hno : "All" ∉ ["Cap"; "Hat"]).
  { intros H. apply elem_of_cons in H as [H|H]; [discriminate|].
    apply list_elem_of_singleton in H. discriminate. }
  destruct (proj2 (proj2 (dashboard_indicators R (19723, 19730) ["Cap"; "Hat"]))
              ltac:(discriminate) Hno) as (_ & Hrows & _).
  split.
  - rewrite (Hrows "Cap") by left. vm_compute. reflexivity.
  - rewrite (Hrows "Hat") by (right; left). vm_compute. reflexivity.
Defined.

(** ** The sidebar widgets *)

Lemma foldr_min_max_bounds (t0 : Z) (ts : list Z) (t : Z) :
  t ∈ t0 :: ts -> foldr Z.min t0 ts <= t <= foldr Z.max t0 ts.
Proof.
  induction ts as [|x ts IH]; simpl; intros Hin.
  - apply list_elem_of_singleton in Hin. lia.
  - apply elem_of_cons in Hin as [-> | Hin].
    + assert (foldr Z.min t0 ts <= t0 <= foldr Z.max t0 ts) by (apply IH; left). lia.
    + apply elem_of_cons in Hin as [-> | Hin]; [lia|].
      assert (foldr Z.min t0 ts <= t <= foldr Z.max t0 ts) by (apply IH; by right). lia.
Qed.

(** X28.  The first view.  With the date range the date input starts
    with and "All" selected, a row is shown exactly when it has a date
    that is not later than midnight of the last day of the data.  So
    every row dated by a day alone (a midnight timestamp) is shown, and
    rows of the last day that carry a time of day are not. *)
Theorem default_view (data : list (sale Timestamp)) (d : date * date) :
  default_date_range data = Some d ->
  (forall r : sale Timestamp, r ∈ filtered_data data d ["All"]
             <-> r ∈ data /\ exists t, Date r = Some t /\ t <= to_datetime (snd d))
  /\ (forall (r : sale Timestamp) t, r ∈ data -> Date r = Some t -> t mod 86400000000000 = 0 ->
        r ∈ filtered_data data d ["All"]).
Proof.
  unfold default_date_range. destruct (omap Date data) as [|t0 ts] eqn:Hdates;
    [discriminate|].
  intros [= <-]. cbn [fst snd].
  assert (Hbounds : forall (r : sale Timestamp) t, r ∈ data -> Date r = Some t ->
            foldr Z.min t0 ts <= t <= foldr Z.max t0 ts).
  { intros r t Hr Ht. apply foldr_min_max_bounds. rewrite <- Hdates.
    apply list_elem_of_omap. eauto. }
  assert (Hshown : forall r : sale Timestamp, r ∈ filtered_data data
                                   (timestamp_date (foldr Z.min t0 ts),
                                    timestamp_date (foldr Z.max t0 ts)) ["All"]
            <-> r ∈ data /\ exists t, Date r = Some t
                         /\ t <= to_datetime (timestamp_date (foldr Z.max t0 ts))).
  { intros r. rewrite filtered_data_All by left.
    rewrite mask_elem_of, date_mask_within. unfold within_date_range, to_datetime.
    cbn [fst snd]. split.
    - intros [Hr Hin]. split; [exact Hr|].
      destruct (Date r) as [t|]; [|contradiction]. exists t. split; [reflexivity | lia].
    - intros (Hr & t & Ht & Hle). split; [exact Hr|]. rewrite Ht.
      split; [|exact Hle].
      pose proof (Hbounds r t Hr Ht) as Hb. unfold timestamp_date.
      pose proof (Z.mul_div_le (foldr Z.min t0 ts) 86400000000000 ltac:(lia)). lia. }
  split; [exact Hshown|].
  intros r t Hr Ht Hmid. apply Hshown. split; [exact Hr|]. exists t. split; [exact Ht|].
  pose proof (Hbounds r t Hr Ht) as Hb. unfold to_datetime, timestamp_date.
  pose proof (Z.div_le_mono t (foldr Z.max t0 ts) 86400000000000 ltac:(lia) ltac:(lia)).
  pose proof (Z.div_mod t 86400000000000 ltac:(lia)). lia.
Qed.

Lemma default_view_witness :
  let data := [ Sale (Some (to_datetime 19723)) "Tee" 5 20 2 500%Q;
                Sale None "Tee" 1 1 1 1%Q;
                Sale (Some (to_datetime 19725 + 36000000000000)) "Cap" 3 9 1 90%Q ] in
  default_date_range data = Some (19723, 19725)
  /\ filtered_data data (19723, 19725) ["All"]
     = [ Sale (Some (to_datetime 19723)) "Tee" 5 20 2 500%Q ]
  /\ Sale (Some (to_datetime 19723)) "Tee" 5 20 2 500%Q
       ∈ filtered_data data (19723, 19725) ["All"].
Proof.
  intros data. split; [reflexivity|]. split; [reflexivity|].
  apply (proj2 (default_view data (19723, 19725) eq_refl) _ (to_datetime 19723));
    [left | reflexivity | reflexivity].
Defined.

Lemma unique_elem_of (l : list string) (x : string) : x ∈ unique l <-> x ∈ l.
Proof.
  induction l as [|y l IH]; simpl; [reflexivity|].
  rewrite !elem_of_cons, mask_elem_of, IH, negb_true_iff, bool_decide_eq_false.
  destruct (decide (x = y)); tauto.
Qed.

Lemma unique_NoDup (l : list string) : NoDup (unique l).
Proof.
  induction l as [|y l IH]; simpl; [constructor|].
  apply NoDup_cons. split.
  - rewrite mask_elem_of, negb_true_iff, bool_decide_eq_false. tauto.
  - exact (sublist_NoDup _ _ IH (mask_sublist _ _)).
Qed.

(** X29.  The product lists offered.  The filter offers "All" first,
    then every product of the data, each one once; the add-data form
    offers the same products, each one once, and then the entry for a new
    product.  Nothing else is offered. *)
Theorem product_options_spec (data : list (sale Timestamp)) :
  (exists products,
     product_options data = "All" :: products
     /\ form_product_options data = (products ++ ["Add a New Product"])%list
     /\ NoDup products
     /\ forall x, x ∈ products <-> exists r, r ∈ data /\ Produits_vendus r = x)
  /\ "All" ∈ product_options data.
Proof.
  split; [|left]. exists (unique (map Produits_vendus data)).
  split; [reflexivity|]. split; [reflexivity|]. split; [apply unique_NoDup|].
  intros x. rewrite unique_elem_of, list_elem_of_fmap. split.
  - intros (r & -> & Hr). eauto.
  - intros (r & Hr & <-). eauto.
Qed.

Example product_options_order :
  product_options [ Sale None "Tee" 1 1 1 1%Q; Sale None "Cap" 1 1 1 1%Q;
                    Sale None "Tee" 2 2 2 2%Q; Sale None "Hat" 1 1 1 1%Q ]
  = ["All"; "Tee"; "Cap"; "Hat"].
Proof. reflexivity. Qed.

(** ** Runs of the script *)

Lemma performance_indicators_ok (df : list (sale Timestamp)) (p : list string) :
  exists view, performance_indicators df p = Ok view
               /\ (p = [] <-> exists warning, view = NoProduct warning).
Proof.
  unfold performance_indicators. destruct p as [|q p]; cbn [length Nat.eqb].
  - eexists. split; [reflexivity|]. split; eauto.
  - destruct (bool_decide ("All" ∈ q :: p)).
    + rewrite indicators_kpis_of. cbn [bind]. eexists. split; [reflexivity|].
      split; [discriminate | intros [? ?]; discriminate].
    + rewrite indicators_per_product_kpis_of. cbn [bind].
      eexists. split; [reflexivity|].
      split; [discriminate | intros [? ?]; discriminate].
Qed.

Lemma selected_products_after_nil (p : list string) :
  selected_products_after p = [] <-> p = [].
Proof.
  unfold selected_products_after.
  destruct (bool_decide ("All" ∈ p)) eqn:HAll; [|reflexivity].
  apply bool_decide_eq_true in HAll. split; [discriminate|].
  intros ->. by apply not_elem_of_nil in HAll.
Qed.

Lemma all_isna_iff (data : list (sale Timestamp)) :
  all_isna data = true <-> forall r, r ∈ data -> Date r = None.
Proof.
  unfold all_isna. rewrite forallb_forall. split; intros H r Hr.
  - apply list_elem_of_In in Hr. specialize (H r Hr). by destruct (Date r).
  - apply list_elem_of_In in Hr. by rewrite (H r Hr).
Qed.

Lemma all_isna_false (data : list (sale Timestamp)) :
  (exists r, r ∈ data /\ Date r <> None) -> all_isna data = false.
Proof.
  intros (r & Hr & Hdate). apply not_true_iff_false. rewrite all_isna_iff.
  intros Hall. by apply Hdate, Hall.
Qed.

(** With both ends of the range chosen and a column without time zone,
    [dashboard_run] is [dashboard]. *)
Lemma dashboard_run_both_ends (data : list (sale Timestamp)) (c : click)
    (first_day last_day : date) (others : list date) (p : list string) :
  dashboard_run false data (first_day :: last_day :: others) p
  = dashboard data (Widgets c (first_day, last_day) p).
Proof. reflexivity. Qed.

(** X18.  The messages of the dashboard.  When no row has a date (an
    empty table included) there is the one error about the dates and
    nothing else, whatever the date input holds.  Otherwise the filter
    runs: with no day chosen it fails with an [IndexError]; with a [Date]
    column that carries a time zone, with a [TypeError]; with the range
    half selected, with an [IndexError]; and in none of these cases a
    message is shown.  With both ends chosen and a column without time
    zone, there is the warning when no product is selected, and no
    message at all when one is. *)
Theorem dashboard_messages (tz_aware : bool) (data : list (sale Timestamp))
    (date_range : list date) (selected_products : list string) :
  let shown := dashboard_run tz_aware data date_range selected_products in
  ((forall r, r ∈ data -> Date r = None) ->
   shown
   = Ok [st_error "The 'Date' column contains no valid data. Check your CSV file."])
  /\ ((exists r, r ∈ data /\ Date r <> None) ->
      (date_range = [] -> shown = Raise IndexError)
      /\ (date_range <> [] -> tz_aware = true -> shown = Raise TypeError)
      /\ (length date_range = 1%nat -> tz_aware = false -> shown = Raise IndexError)
      /\ (2 <= length date_range -> tz_aware = false ->
          (selected_products = [] ->
           shown
           = Ok [st_warning "Please select at least one product to display indicators."])
          /\ (selected_products <> [] -> shown = Ok []))%nat).
Proof.
  cbv zeta. unfold dashboard_run. split.
  - intros Hall. apply all_isna_iff in Hall. by rewrite Hall.
  - intros Hr. rewrite (all_isna_false _ Hr). split_and!.
    + intros ->. reflexivity.
    + intros Hne ->. destruct date_range; [congruence | reflexivity].
    + intros Hlen ->. destruct date_range as [|first_day [|last_day others]];
        [discriminate | reflexivity | discriminate].
    + intros Hlen ->.
      destruct date_range as [|first_day [|last_day others]];
        [simpl in Hlen; lia | simpl in Hlen; lia |].
      cbn [getitem lookup list_lookup bind]. split.
      * intros ->. reflexivity.
      * intros Hsel.
        destruct (performance_indicators_ok
                    (filtered_data data (first_day, last_day) selected_products)
                    (selected_products_after selected_products))
          as (view & -> & Hview).
        simpl. destruct view as [warning| |]; try reflexivity.
        exfalso. apply Hsel, selected_products_after_nil, Hview. eauto.
Qed.

Lemma dashboard_messages_witness :
  dashboard_run false [ Sale (Some (to_datetime 19723)) "Tee" 5 20 2 500%Q ]
                [19723; 19730] []
  = Ok [st_warning "Please select at least one product to display indicators."]
  /\ dashboard_run false [ Sale (Some (to_datetime 19723)) "Tee" 5 20 2 500%Q ]
                   [19723] ["All"]
     = Raise IndexError
  /\ dashboard_run true [ Sale None "Tee" 5 20 2 500%Q ] [19723] ["All"]
     = Ok [st_error "The 'Date' column contains no valid data. Check your CSV file."].
Proof.
  assert (Hdated : exists r : sale Timestamp,
            r ∈ [ Sale (Some (to_datetime 19723)) "Tee" 5 20 2 500%Q ]
            /\ Date r <> None).
  { eexists. split; [apply list_elem_of_singleton; reflexivity | discriminate]. }
  split; [|split].
  - destruct (proj2 (dashboard_messages false _ [19723; 19730] []) Hdated)
      as (_ & _ & _ & Hboth).
    apply Hboth; [simpl; lia | reflexivity | reflexivity].
  - destruct (proj2 (dashboard_messages false _ [19723] ["All"]) Hdated)
      as (_ & _ & Hhalf & _).
    apply Hhalf; reflexivity.
  - apply (proj1 (dashboard_messages true _ [19723] ["All"])). intros r Hr.
    apply list_elem_of_singleton in Hr. by subst r.
Defined.

Section RunFacts.

Variable users_to_csv : list user -> string.
Variable users_of_csv : string -> option (list user).
Variable sales_of_csv : string -> option (list (sale string)).
Variable to_datetime_coerce : list string -> string -> Timestamp.
Variable sales_to_csv : list (sale date_cell) -> string.

Abbreviation run := (run_script users_to_csv users_of_csv sales_of_csv
                            to_datetime_coerce sales_to_csv).
Abbreviation runs := (run_many users_to_csv users_of_csv sales_of_csv
                           to_datetime_coerce sales_to_csv).
Abbreviation load := (load_users users_to_csv users_of_csv users_file_path).

(** Case analysis along the branches of a run on the world [w]. *)
Ltac run_cases w :=
  unfold run_script;
  destruct (authenticated (session w)) as [[|]|] eqn:?;
  repeat (cbn [negb world_after session ended shown disk data_cache
               authenticated session_username] in *;
          match goal with
          | |- context [match ?x with _ => _ end] => destruct x eqn:?
          end).

Lemma run_keeps_session_ok (ui : widgets) (w : world) :
  session_ok (session w) -> session_ok (session (world_after (run ui w))).
Proof.
  intros Hok. run_cases w; try exact Hok;
    unfold session_ok; cbn; intros; eauto; discriminate.
Qed.

Lemma runs_keep_session_ok (uis : list widgets) (w : world) :
  session_ok (session w) -> session_ok (session (runs uis w)).
Proof.
  revert w. induction uis as [|ui uis IH]; intros w Hok; [exact Hok|].
  apply IH, run_keeps_session_ok, Hok.
Qed.

Lemma session_ok_no_attribute_error (ui : widgets) (w : world) :
  session_ok (session w) -> ended (run ui w) <> attribute_error.
Proof.
  intros Hok. run_cases w; try discriminate.
  all: destruct Hok as [u Hu]; [assumption | congruence].
Qed.

Lemma is_admin_true (u : string) : is_admin u = true -> u = "admin".
Proof. apply bool_decide_eq_true. Qed.

Lemma load_users_keeps (fs : filesystem) :
  is_Some (fs !! users_file_path) -> snd (load fs) = fs.
Proof.
  intros [text Htext]. unfold load_users, read_csv. rewrite Htext.
  destruct (users_of_csv text); reflexivity.
Qed.

Lemma load_users_other (fs : filesystem) (other : string) :
  other <> users_file_path -> snd (load fs) !! other = fs !! other.
Proof.
  intros Hother. unfold load_users, read_csv, to_csv.
  destruct (fs !! users_file_path) as [text|] eqn:Hfile.
  - destruct (users_of_csv text); reflexivity.
  - simpl. by rewrite lookup_insert_ne.
Qed.

Lemma load_users_parsed (fs : filesystem) (text : string) (users : list user) :
  fs !! users_file_path = Some text -> users_of_csv text = Some users ->
  load fs = (Ok users, fs).
Proof. intros Hfile Hcsv. unfold load_users, read_csv. by rewrite Hfile, Hcsv. Qed.

(** X19.  Whatever is clicked, run after run, starting from a browser
    that has not run the script yet: a session that is logged in has a
    username that is a string, so the admin test
    [is_admin(st.session_state.username)] never meets a missing
    attribute. *)
Theorem reachable_sessions (uis : list widgets) (fs : filesystem)
    (cache : option (list (sale Timestamp))) (ui : widgets) :
  let w := runs uis (World fs cache fresh_session) in
  session_ok (session w) /\ ended (run ui w) <> attribute_error.
Proof.
  simpl.
  assert (Hok : session_ok (session (runs uis (World fs cache fresh_session)))).
  { apply runs_keep_session_ok. intros Hauth. discriminate Hauth. }
  split; [exact Hok | by apply session_ok_no_attribute_error].
Qed.

(** X20.  Logging in.  A session that is not logged in becomes logged
    in only through a click on Login with a username and a password that
    [authenticate] accepts on the table just loaded; it then carries that
    username and the script is run again.  A refused login shows an error
    and leaves the session logged out. *)
Theorem login_needs_credentials (ui : widgets) (w : world) :
  authenticated (session w) <> Some true ->
  (authenticated (session (world_after (run ui w))) = Some true
   <-> exists u p users,
         clicked ui = Login u p /\ fst (load (disk w)) = Ok users
         /\ authenticate u p users = true)
  /\ (forall u p users,
        clicked ui = Login u p -> fst (load (disk w)) = Ok users ->
        if authenticate u p users then
          session (world_after (run ui w)) = Session (Some true) (Str u)
          /\ ended (run ui w) = rerun
        else
          authenticated (session (world_after (run ui w))) = Some false
          /\ shown (run ui w)
             = [st_error "Invalid username or password. Please try again."]
          /\ ended (run ui w) = finished).
Proof.
  intros Hout. split; [split|].
  - run_cases w; cbn; intros Hafter; try congruence.
    all: do 3 eexists; split; [reflexivity|]; split; [reflexivity | eassumption].
  - intros (u & p & users & Hclick & Hload & Hauth). unfold run_script.
    destruct (load (disk w)) as [loaded fs]. simpl in Hload. subst loaded.
    rewrite Hclick.
    destruct (authenticated (session w)) as [[|]|]; [congruence| |];
      cbn [negb]; rewrite Hauth; reflexivity.
  - intros u p users Hclick Hload. unfold run_script.
    destruct (load (disk w)) as [loaded fs]. simpl in Hload. subst loaded.
    rewrite Hclick.
    destruct (authenticated (session w)) as [[|]|]; [congruence| |];
      cbn [negb]; destruct (authenticate u p users); auto.
Qed.

(** X21.  Only an administrator's session writes.  Unless the session
    is logged in under the name "admin", a run leaves the files as
    [load_users] leaves them, whatever is clicked: untouched when the
    users file is there, with the default users file added when it is
    not. *)
Theorem only_admin_writes (ui : widgets) (w : world) :
  ~ (authenticated (session w) = Some true
     /\ session_username (session w) = Str "admin") ->
  disk (world_after (run ui w)) = snd (load (disk w))
  /\ (is_Some (disk w !! users_file_path) -> disk (world_after (run ui w)) = disk w).
Proof.
  intros Hnot.
  assert (Hdisk : disk (world_after (run ui w)) = snd (load (disk w))).
  { run_cases w; try reflexivity.
    all: exfalso; apply Hnot; split; [reflexivity|].
    all: match goal with H : is_admin _ = true |- _ => apply is_admin_true in H end.
    all: congruence. }
  split; [exact Hdisk|]. intros Hthere. rewrite Hdisk. by apply load_users_keeps.
Qed.

Lemma load_data_same (fs fs' : filesystem) (file_path : string) :
  fs !! file_path = fs' !! file_path ->
  load_data sales_of_csv to_datetime_coerce file_path fs
  = load_data sales_of_csv to_datetime_coerce file_path fs'.
Proof. intros Hsame. unfold load_data, read_csv. by rewrite Hsame. Qed.

Lemma data_file_is_not_users_file : data_file_path <> users_file_path.
Proof. discriminate. Qed.

Lemma dashboard_total (data : list (sale Timestamp)) (ui : widgets) :
  exists msgs, dashboard data ui = Ok msgs.
Proof.
  unfold dashboard. destruct (all_isna data); [eauto|].
  destruct (performance_indicators_ok
              (filtered_data data (date_input ui) (multiselect ui))
              (selected_products_after (multiselect ui))) as (view & -> & _).
  simpl. destruct view; eauto.
Qed.

(** X22.  Logging out.  In a logged-in session whose users file loads
    and whose data is cached or loads, a click on Logout clears the
    login and the username, shows the confirmation, writes nothing
    beyond what [load_users] does, and the script is run again. *)
Theorem logout_click (ui : widgets) (w : world) (users : list user)
    (data : list (sale Timestamp)) :
  authenticated (session w) = Some true ->
  clicked ui = Logout ->
  fst (load (disk w)) = Ok users ->
  data_cache w = Some data
  \/ (data_cache w = None
      /\ load_data sales_of_csv to_datetime_coerce data_file_path (disk w) = Ok data) ->
  run ui w
  = Outcome (World (snd (load (disk w))) (Some data) (Session (Some false) PyNone))
            [st_success "You have been logged out."] rerun.
Proof.
  intros Hauth Hclick Hload Hdata. unfold run_script.
  destruct (load (disk w)) as [loaded fs] eqn:Hl. simpl in Hload. subst loaded.
  rewrite Hauth. cbn [negb].
  assert (Hcached : cached_load_data sales_of_csv to_datetime_coerce
                      (World fs (data_cache w) (session w)) = (Ok data, Some data)).
  { unfold cached_load_data. cbn [data_cache disk].
    destruct Hdata as [-> | [-> Hfile]]; [reflexivity|].
    rewrite (load_data_same fs (disk w)), Hfile; [reflexivity|].
    replace fs with (snd (load (disk w))) by (by rewrite Hl).
    apply load_users_other, data_file_is_not_users_file. }
  rewrite Hcached, Hclick. reflexivity.
Qed.

Lemma stuck_step (ui : widgets) (w : world) :
  authenticated (session w) = Some true ->
  data_cache w = None ->
  disk w !! data_file_path = None ->
  let w' := world_after (run ui w) in
  session w' = session w /\ data_cache w' = None
  /\ disk w' !! data_file_path = None
  /\ (ended (run ui w) = uncaught FileNotFoundError
      \/ ended (run ui w) = uncaught ParserError)
  /\ shown (run ui w) = [].
Proof.
  intros Hauth Hcache Hfile. simpl. unfold run_script.
  destruct (load (disk w)) as [loaded fs] eqn:Hl.
  assert (Hfs : fs !! data_file_path = None).
  { replace fs with (snd (load (disk w))) by (by rewrite Hl).
    rewrite load_users_other by apply data_file_is_not_users_file. exact Hfile. }
  destruct loaded as [users|e].
  - rewrite Hauth. cbn [negb]. unfold cached_load_data. cbn [data_cache disk].
    rewrite Hcache. unfold load_data, read_csv. rewrite Hfs. cbn. auto 6.
  - cbn. repeat split; try assumption.
    assert (He : fst (load (disk w)) = Raise e) by (by rewrite Hl).
    unfold load_users, read_csv in He.
    destruct (disk w !! users_file_path) as [text|]; [|discriminate He].
    destruct (users_of_csv text); [discriminate He|].
    simpl in He. injection He as <-. by right.
Qed.

(** X23.  No way out without the data.  In a logged-in session, while
    the data file is missing and nothing is cached, every run stops on an
    uncaught exception before the Logout button is reached: whatever is
    clicked, and however often, the session stays logged in under the
    same name and nothing is shown. *)
Theorem no_logout_without_data (uis : list widgets) (w : world) :
  authenticated (session w) = Some true ->
  data_cache w = None ->
  disk w !! data_file_path = None ->
  session (runs uis w) = session w
  /\ forall ui, (ended (run ui (runs uis w)) = uncaught FileNotFoundError
                 \/ ended (run ui (runs uis w)) = uncaught ParserError)
                /\ shown (run ui (runs uis w)) = [].
Proof.
  intros Hauth Hcache Hfile.
  assert (Hinv : session (runs uis w) = session w
                 /\ data_cache (runs uis w) = None
                 /\ disk (runs uis w) !! data_file_path = None).
  { revert w Hauth Hcache Hfile.
    induction uis as [|ui uis IH]; intros w Hauth Hcache Hfile; [auto|].
    destruct (stuck_step ui w Hauth Hcache Hfile) as (Hs & Hc & Hd & _).
    simpl in Hs, Hc, Hd. unfold run_many. simpl.
    destruct (IH (world_after (run ui w))) as (Hs' & Hc' & Hd');
      [by rewrite Hs | assumption | assumption |].
    unfold run_many in Hs', Hc', Hd'. rewrite Hs', Hs. auto. }
  destruct Hinv as (Hs & Hc & Hd). split; [exact Hs|]. intros ui.
  destruct (stuck_step ui (runs uis w)) as (_ & _ & _ & Hend & Hshown);
    [by rewrite Hs | assumption | assumption |].
  auto.
Qed.

Lemma cache_kept_step (ui : widgets) (w : world) (data : list (sale Timestamp)) :
  data_cache w = Some data -> data_cache (world_after (run ui w)) = Some data.
Proof.
  intros Hcache. unfold run_script, cached_load_data. cbn [data_cache]. rewrite Hcache.
  destruct (authenticated (session w)) as [[|]|];
    repeat (cbn [negb world_after data_cache];
            match goal with
            | |- context [match ?x with _ => _ end] => destruct x
            end); reflexivity.
Qed.

(** X24.  The cached data is never refreshed.  Once [load_data] has
    returned a table, every later run keeps working on that same table,
    whatever is clicked and whatever is written to the data file in the
    meantime. *)
Theorem cache_is_kept (uis : list widgets) (w : world)
    (data : list (sale Timestamp)) :
  data_cache w = Some data ->
  data_cache (runs uis w) = Some data
  /\ forall text,
       data_cache (runs uis (World (<[data_file_path := text]> (disk w))
                                   (data_cache w) (session w)))
       = Some data.
Proof.
  assert (Hgen : forall w0, data_cache w0 = Some data ->
                            data_cache (runs uis w0) = Some data).
  { induction uis as [|ui uis IH]; intros w0 H0; [exact H0|].
    apply IH, cache_kept_step, H0. }
  intros Hcache. split; [by apply Hgen|]. intros text. by apply Hgen.
Qed.

Lemma add_data_submitted_accepts (new_date : date)
    (product_selection new_product_input : string)
    (new_sales new_visitors new_conversions : Z) (new_revenue : Q)
    (data : list (sale Timestamp)) (fs : filesystem) :
  chosen_product product_selection new_product_input <> "" ->
  add_data_submitted sales_to_csv new_date product_selection new_product_input
                     new_sales new_visitors new_conversions new_revenue data fs
  = (st_success "Data successfully added and CSV file updated.",
     <[data_file_path :=
         sales_to_csv
           (map stamped data
            ++ [Sale (Day new_date) (chosen_product product_selection new_product_input)
                     new_sales new_visitors new_conversions new_revenue])%list]> fs).
Proof.
  intros Hne. unfold add_data_submitted.
  fold (chosen_product product_selection new_product_input).
  apply truthy_true_iff in Hne. rewrite Hne. reflexivity.
Qed.

(** X25.  The add-data form.  When the product it stands for is empty
    (an empty entry picked, or the new-name entry picked and no name
    typed), there is an error and nothing is written.  Otherwise the data
    file is overwritten with the given table followed by the one new row,
    dated by the day of the form, and no other file is touched. *)
Theorem add_data_submitted_spec (new_date : date)
    (product_selection new_product_input : string)
    (new_sales new_visitors new_conversions : Z) (new_revenue : Q)
    (data : list (sale Timestamp)) (fs : filesystem) :
  let submit := add_data_submitted sales_to_csv new_date product_selection
                  new_product_input new_sales new_visitors new_conversions
                  new_revenue data fs in
  let new_product := chosen_product product_selection new_product_input in
  (new_product = "" ->
   submit = (st_error "Please enter the name of the new product.", fs))
  /\ (new_product <> "" ->
      submit
      = (st_success "Data successfully added and CSV file updated.",
         <[data_file_path :=
             sales_to_csv (map stamped data
                           ++ [Sale (Day new_date) new_product new_sales new_visitors
                                    new_conversions new_revenue])%list]> fs)
      /\ forall other, other <> data_file_path -> snd submit !! other = fs !! other).
Proof.
  simpl. split.
  - unfold add_data_submitted.
    fold (chosen_product product_selection new_product_input).
    intros ->. reflexivity.
  - intros Hne. rewrite add_data_submitted_accepts by exact Hne.
    split; [reflexivity|]. intros other Hother. simpl. by rewrite lookup_insert_ne.
Qed.

Lemma run_admin (ui : widgets) (w : world) (text : string) (users : list user)
    (data : list (sale Timestamp)) :
  session w = Session (Some true) (Str "admin") ->
  data_cache w = Some data ->
  disk w !! users_file_path = Some text ->
  users_of_csv text = Some users ->
  clicked ui <> Logout ->
  exists msgs,
    run ui w
    = Outcome (World (snd (admin_block users_to_csv sales_to_csv (clicked ui)
                                       data users (disk w)))
                     (Some data) (session w))
              (msgs ++ fst (admin_block users_to_csv sales_to_csv (clicked ui)
                                        data users (disk w)))
              finished.
Proof.
  intros Hsession Hcache Hfile Hcsv Hclick.
  destruct (dashboard_total data ui) as [msgs Hmsgs]. exists msgs.
  unfold run_script. rewrite (load_users_parsed _ _ _ Hfile Hcsv), Hsession.
  cbn [authenticated session_username negb].
  unfold cached_load_data. cbn [data_cache]. rewrite Hcache, Hmsgs.
  destruct (admin_block users_to_csv sales_to_csv (clicked ui) data users (disk w))
    as [more fs'] eqn:Hblock.
  destruct (clicked ui); try congruence; rewrite ?Hblock; reflexivity.
Qed.

(** X26.  A second addition drops the first.  In an administrator's
    session working on cached data, each accepted add-data form writes
    the cached table followed by its own row.  After two forms in a row
    the data file holds the cached table and the second row only: the row
    of the first form is no longer in it. *)
Theorem add_data_twice (w : world) (text : string) (users : list user)
    (data : list (sale Timestamp)) (ui1 ui2 : widgets)
    (d1 d2 : date) (sel1 inp1 sel2 inp2 : string)
    (s1 v1 c1 s2 v2 c2 : Z) (r1 r2 : Q) :
  session w = Session (Some true) (Str "admin") ->
  data_cache w = Some data ->
  disk w !! users_file_path = Some text ->
  users_of_csv text = Some users ->
  chosen_product sel1 inp1 <> "" ->
  chosen_product sel2 inp2 <> "" ->
  clicked ui1 = AddData d1 sel1 inp1 s1 v1 c1 r1 ->
  clicked ui2 = AddData d2 sel2 inp2 s2 v2 c2 r2 ->
  let w1 := world_after (run ui1 w) in
  let w2 := world_after (run ui2 w1) in
  disk w1 !! data_file_path
  = Some (sales_to_csv
            (map stamped data
             ++ [Sale (Day d1) (chosen_product sel1 inp1) s1 v1 c1 r1])%list)
  /\ disk w2 !! data_file_path
     = Some (sales_to_csv
               (map stamped data
                ++ [Sale (Day d2) (chosen_product sel2 inp2) s2 v2 c2 r2])%list).
Proof.
  intros Hsession Hcache Hfile Hcsv Hp1 Hp2 Hc1 Hc2. simpl.
  assert (Hadd : forall d sel inp s v c r fs,
            chosen_product sel inp <> "" ->
            admin_block users_to_csv sales_to_csv (AddData d sel inp s v c r)
                        data users fs
            = ([st_success "Data successfully added and CSV file updated."],
               <[data_file_path :=
                   sales_to_csv
                     (map stamped data
                      ++ [Sale (Day d) (chosen_product sel inp) s v c r])%list]> fs)).
  { intros d sel inp s v c r fs Hp. unfold admin_block.
    by rewrite add_data_submitted_accepts. }
  destruct (run_admin ui1 w text users data) as [msgs1 Hrun1]; try assumption.
  { rewrite Hc1. discriminate. }
  rewrite Hrun1, Hc1, Hadd by assumption. cbn [world_after disk snd].
  split; [apply lookup_insert_eq|].
  destruct (run_admin ui2
              (World (<[data_file_path :=
                          sales_to_csv
                            (map stamped data
                             ++ [Sale (Day d1) (chosen_product sel1 inp1) s1 v1 c1 r1])%list]>
                        (disk w))
                     (Some data) (session w))
              text users data) as [msgs2 Hrun2]; try assumption; try reflexivity.
  { cbn [disk]. rewrite lookup_insert_ne by apply data_file_is_not_users_file.
    exact Hfile. }
  { rewrite Hc2. discriminate. }
  rewrite Hrun2, Hc2, Hadd by assumption. cbn [world_after disk snd].
  apply lookup_insert_eq.
Qed.

(** X27.  A user added by the administrator can log in.  When the
    table with the new row reads back from the text written for it, then
    after the add-user form, a click on Logout and a click on Login with
    the new username and password, the session is logged in under the new
    username. *)
Theorem added_user_logs_in (w : world) (text : string) (users : list user)
    (data : list (sale Timestamp)) (ui1 ui2 ui3 : widgets) (u p : string) :
  session w = Session (Some true) (Str "admin") ->
  data_cache w = Some data ->
  disk w !! users_file_path = Some text ->
  users_of_csv text = Some users ->
  u <> "" -> p <> "" ->
  users_of_csv (users_to_csv (users ++ [User u (hash_password p)]))
  = Some (users ++ [User u (hash_password p)])%list ->
  clicked ui1 = AddUser u p ->
  clicked ui2 = Logout ->
  clicked ui3 = Login u p ->
  session (runs [ui1; ui2; ui3] w) = Session (Some true) (Str u).
Proof.
  intros Hsession Hcache Hfile Hcsv Hu Hp Hback Hc1 Hc2 Hc3.
  unfold run_many. cbn [fold_left].
  destruct (run_admin ui1 w text users data) as [msgs1 Hrun1]; try assumption.
  { rewrite Hc1. discriminate. }
  rewrite Hrun1, Hc1. unfold admin_block.
  rewrite (add_user_button_accepts users_to_csv u p (State users (disk w)) Hu Hp).
  cbn [world_after snd files users_data].
  set (T' := (users ++ [User u (hash_password p)])%list) in *.
  set (fs1 := <[users_file_path := users_to_csv T']> (disk w)).
  assert (Hload1 : load fs1 = (Ok T', fs1)).
  { apply (load_users_parsed fs1 (users_to_csv T')); [apply lookup_insert_eq | exact Hback]. }
  assert (Hrun2 : run ui2 (World fs1 (Some data) (session w))
                  = Outcome (World fs1 (Some data) (Session (Some false) PyNone))
                            [st_success "You have been logged out."] rerun).
  { unfold run_script, cached_load_data. cbn [disk session data_cache].
    rewrite Hload1, Hsession, Hc2. reflexivity. }
  rewrite Hrun2. cbn [world_after].
  unfold run_script. cbn [disk session authenticated negb]. rewrite Hload1, Hc3.
  assert (Hauth : authenticate u p T' = true).
  { apply authenticate_true_iff. exists (User u (hash_password p)).
    split; [|split; reflexivity]. apply elem_of_app. right. left. }
  rewrite Hauth. reflexivity.
Qed.

End RunFacts.

(** Examples of runs, with the stand-ins for the pandas side. *)

Lemma login_needs_credentials_witness :
  let run := run_script plain_csv (sample_users_of_csv []) (fun _ => None)
                        (fun _ _ => None) sample_sales_to_csv in
  let w := World ∅ None fresh_session in
  session (world_after (run (Widgets (Login "admin" "admin") (0, 0) ["All"]) w))
  = Session (Some true) (Str "admin")
  /\ authenticated
       (session (world_after (run (Widgets (Login "admin" "guess") (0, 0) ["All"]) w)))
     = Some false.
Proof.
  intros run w. split.
  - pose proof (proj2 (login_needs_credentials plain_csv (sample_users_of_csv [])
                         (fun _ => None) (fun _ _ => None) sample_sales_to_csv
                         (Widgets (Login "admin" "admin") (0, 0) ["All"]) w
                         ltac:(discriminate))
                  "admin" "admin" [User "admin" (hash_password "admin")]
                  eq_refl eq_refl) as H.
    rewrite authenticate_admin_admin in H. exact (proj1 H).
  - pose proof (proj2 (login_needs_credentials plain_csv (sample_users_of_csv [])
                         (fun _ => None) (fun _ _ => None) sample_sales_to_csv
                         (Widgets (Login "admin" "guess") (0, 0) ["All"]) w
                         ltac:(discriminate))
                  "admin" "guess" [User "admin" (hash_password "admin")]
                  eq_refl eq_refl) as H.
    replace (authenticate "admin" "guess" [User "admin" (hash_password "admin")])
      with false in H by (by vm_compute).
    exact (proj1 H).
Defined.

Lemma only_admin_writes_witness :
  let T := [User "admin" (hash_password "admin"); User "bob" (hash_password "pw")] in
  let w := World {[ users_file_path := plain_csv T ]} (Some [])
                 (Session (Some true) (Str "bob")) in
  disk (world_after
          (run_script plain_csv (sample_users_of_csv [T]) (fun _ => None)
                      (fun _ _ => None) sample_sales_to_csv
                      (Widgets (AddUser "eve" "secret") (0, 0) ["All"]) w))
  = disk w.
Proof.
  intros T w.
  apply (only_admin_writes plain_csv (sample_users_of_csv [T]) (fun _ => None)
           (fun _ _ => None) sample_sales_to_csv).
  - intros [_ Hname]. discriminate Hname.
  - exists (plain_csv T). apply lookup_singleton_eq.
Defined.

Lemma logout_click_witness :
  let T := [User "admin" (hash_password "admin")] in
  let w := World {[ users_file_path := plain_csv T ]} (Some [])
                 (Session (Some true) (Str "admin")) in
  session (world_after
             (run_script plain_csv (sample_users_of_csv [T]) (fun _ => None)
                         (fun _ _ => None) sample_sales_to_csv
                         (Widgets Logout (0, 0) ["All"]) w))
  = Session (Some false) PyNone.
Proof.
  intros T w.
  rewrite (logout_click plain_csv (sample_users_of_csv [T]) (fun _ => None)
             (fun _ _ => None) sample_sales_to_csv
             (Widgets Logout (0, 0) ["All"]) w T []);
    [reflexivity | reflexivity | reflexivity | | by left].
  unfold load_users, read_csv. cbn [disk w]. rewrite lookup_singleton_eq.
  vm_compute. reflexivity.
Defined.

Lemma no_logout_without_data_witness :
  let w := World ∅ None (Session (Some true) (Str "admin")) in
  session (run_many plain_csv (sample_users_of_csv []) (fun _ => None)
                    (fun _ _ => None) sample_sales_to_csv
                    [Widgets Logout (0, 0) ["All"]; Widgets Logout (0, 0) ["All"]] w)
  = Session (Some true) (Str "admin").
Proof.
  intros w.
  apply (no_logout_without_data plain_csv (sample_users_of_csv []) (fun _ => None)
           (fun _ _ => None) sample_sales_to_csv
           [Widgets Logout (0, 0) ["All"]; Widgets Logout (0, 0) ["All"]] w);
    [reflexivity | reflexivity | apply lookup_empty].
Defined.

Lemma cache_is_kept_witness :
  let data := [ Sale (Some (to_datetime 19723)) "Tee" 5 20 2 500%Q ] in
  let w := World ∅ (Some data) fresh_session in
  data_cache (run_many plain_csv (sample_users_of_csv []) (fun _ => None)
                       (fun _ _ => None) sample_sales_to_csv
                       [Widgets (Login "admin" "admin") (0, 0) ["All"];
                        Widgets (AddData 19800 "Cap" "" 1 2 1 30%Q) (0, 0) ["All"]] w)
  = Some data.
Proof.
  intros data w.
  exact (proj1 (cache_is_kept plain_csv (sample_users_of_csv []) (fun _ => None)
                  (fun _ _ => None) sample_sales_to_csv
                  [Widgets (Login "admin" "admin") (0, 0) ["All"];
                   Widgets (AddData 19800 "Cap" "" 1 2 1 30%Q) (0, 0) ["All"]]
                  w data eq_refl)).
Defined.

Lemma add_data_twice_witness :
  let T := [User "admin" (hash_password "admin")] in
  let run := run_script plain_csv (sample_users_of_csv [T]) (fun _ => None)
                        (fun _ _ => None) sample_sales_to_csv in
  let data := [ Sale (Some (to_datetime 19723)) "Tee" 5 20 2 500%Q ] in
  let w := World {[ users_file_path := plain_csv T ]} (Some data)
                 (Session (Some true) (Str "admin")) in
  let w1 := world_after (run (Widgets (AddData 19800 "Cap" "" 1 2 1 30%Q) (0, 0) ["All"]) w) in
  let w2 := world_after
              (run (Widgets (AddData 19801 "Add a New Product" "Hat" 4 9 2 80%Q)
                            (0, 0) ["All"]) w1) in
  disk w1 !! data_file_path = Some "Tee;Cap"
  /\ disk w2 !! data_file_path = Some "Tee;Hat".
Proof.
  intros T run data w w1 w2.
  exact (add_data_twice plain_csv (sample_users_of_csv [T]) (fun _ => None)
           (fun _ _ => None) sample_sales_to_csv w (plain_csv T) T data
           (Widgets (AddData 19800 "Cap" "" 1 2 1 30%Q) (0, 0) ["All"])
           (Widgets (AddData 19801 "Add a New Product" "Hat" 4 9 2 80%Q) (0, 0) ["All"])
           19800 19801 "Cap" "" "Add a New Product" "Hat" 1 2 1 4 9 2 30%Q 80%Q
           eq_refl eq_refl (lookup_singleton_eq _ _)
           ltac:(vm_compute; reflexivity)
           ltac:(discriminate) ltac:(discriminate) eq_refl eq_refl).
Defined.

Lemma added_user_logs_in_witness :
  let T := [User "admin" (hash_password "admin")] in
  let T' := [User "admin" (hash_password "admin"); User "eve" (hash_password "secret")] in
  let w := World {[ users_file_path := plain_csv T ]} (Some [])
                 (Session (Some true) (Str "admin")) in
  session (run_many plain_csv (sample_users_of_csv [T; T']) (fun _ => None)
                    (fun _ _ => None) sample_sales_to_csv
                    [Widgets (AddUser "eve" "secret") (0, 0) ["All"];
                     Widgets Logout (0, 0) ["All"];
                     Widgets (Login "eve" "secret") (0, 0) ["All"]] w)
  = Session (Some true) (Str "eve").
Proof.
  intros T T' w.
  apply (added_user_logs_in plain_csv (sample_users_of_csv [T; T']) (fun _ => None)
           (fun _ _ => None) sample_sales_to_csv w (plain_csv T) T []
           (Widgets (AddUser "eve" "secret") (0, 0) ["All"])
           (Widgets Logout (0, 0) ["All"])
           (Widgets (Login "eve" "secret") (0, 0) ["All"]) "eve" "secret");
    first [reflexivity | discriminate].
Defined.
